(** * Quota-Activator: trigger-time calculation, conflict validation and
      the scheduling loop

    A shallow embedding of
      - [config/validator.go]   (validateTargetTimesConflict, isTimeInRange,
                                 isValidTimeFormat, parseTime, formatTime),
      - [scheduler/calculator.go] (CalculateDailyTriggers, NextTrigger),
      - [scheduler/scheduler.go]  (Scheduler.Start),
    together with the fragments of Go's [time], [fmt], [strings] and [sort]
    packages these functions call. *)

From Stdlib Require Import ZArith List String Ascii Bool Lia.
From Stdlib Require Import Permutation Sorted.
From ITree Require ITree ITreeFacts Events.State Events.StateFacts.
Import ListNotations.
Open Scope Z_scope.

(* ===================================================================== *)
(** ** Go's [int] and [int64]: 64-bit two's complement                    *)
(* ===================================================================== *)

Module GoInt.

Definition minInt64 : Z := - 2 ^ 63.
Definition maxInt64 : Z := 2 ^ 63 - 1.

(** The value an [int64] holds after an arithmetic result [z]. *)
Definition wrap64 (z : Z) : Z := (z + 2 ^ 63) mod 2 ^ 64 - 2 ^ 63.

Definition inInt64 (z : Z) : bool := (minInt64 <=? z) && (z <=? maxInt64).

End GoInt.

(* ===================================================================== *)
(** ** Package [time]                                                     *)
(* ===================================================================== *)

Module GoTime.
Import GoInt.

(** [time.Duration] is an [int64] count of nanoseconds. *)
Definition Duration := Z.

Definition Nanosecond : Duration := 1.
Definition Second : Duration := 1000000000.
Definition Minute : Duration := 60 * Second.
Definition Hour : Duration := 60 * Minute.

(** [time.Duration(n) * unit] on [int64]. *)
Definition durationOf (n : Z) (unit : Duration) : Duration := wrap64 (n * unit).

(** Unary minus on a [Duration]. *)
Definition neg (d : Duration) : Duration := wrap64 (- d).

(** A [time.Location] is modelled as a zone at a fixed offset, given in
    seconds east of UTC ([time.FixedZone]); [time.UTC] is offset 0.  Zones
    with daylight-saving transitions are outside the model. *)
Definition Location := Z.
Definition UTC : Location := 0.

(** A [time.Time]: an absolute instant, in nanoseconds since the Unix
    epoch, and the Location it is presented in.  Go stores the seconds in
    an [int64] (a range of hundreds of billions of years); the instant is
    kept as an unbounded [Z] here. *)
Record Time : Type := mkTime { unixNano : Z; loc : Location }.

(** *** The proleptic Gregorian calendar *)

(** Days since 1970-01-01 of the civil date [y]-[m]-[d]; linear in [d],
    so that a day outside the month carries over as in [time.Date]. *)
Definition days_from_civil (y m d : Z) : Z :=
  let y' := if m <=? 2 then y - 1 else y in
  let era := y' / 400 in
  let yoe := y' - era * 400 in
  let mp := if 2 <? m then m - 3 else m + 9 in
  let doy := (153 * mp + 2) / 5 + d - 1 in
  let doe := yoe * 365 + yoe / 4 - yoe / 100 + doy in
  era * 146097 + doe - 719468.

(** Civil date (year, month, day) of the day number [z]. *)
Definition civil_from_days (z : Z) : Z * Z * Z :=
  let z' := z + 719468 in
  let era := z' / 146097 in
  let doe := z' - era * 146097 in
  let yoe := (doe - doe / 1460 + doe / 36524 - doe / 146096) / 365 in
  let doy := doe - (365 * yoe + yoe / 4 - yoe / 100) in
  let mp := (5 * doy + 2) / 153 in
  let d := doy - (153 * mp + 2) / 5 + 1 in
  let m := if mp <? 10 then mp + 3 else mp - 9 in
  ((if m <=? 2 then yoe + era * 400 + 1 else yoe + era * 400), m, d).

(** *** Presentation of a [Time] in its Location *)

(** Whole seconds since the epoch (rounded down). *)
Definition unixSec (t : Time) : Z := unixNano t / Second.

(** Seconds of the wall clock in the Time's Location. *)
Definition wallSec (t : Time) : Z := unixSec t + loc t.

Definition dayNumber (t : Time) : Z := wallSec t / 86400.

Definition Year (t : Time) : Z := fst (fst (civil_from_days (dayNumber t))).
Definition Month (t : Time) : Z := snd (fst (civil_from_days (dayNumber t))).
Definition Day (t : Time) : Z := snd (civil_from_days (dayNumber t)).

Definition Hour_ (t : Time) : Z := (wallSec t mod 86400) / 3600.
Definition Minute_ (t : Time) : Z := (wallSec t mod 3600) / 60.
Definition Second_ (t : Time) : Z := wallSec t mod 60.

(** [time.Date(year, month, day, hour, min, sec, nsec, loc)].  Values
    outside their usual ranges are normalised: the month into the year,
    everything else linearly. *)
Definition Date (year month day hour min sec nsec : Z) (l : Location) : Time :=
  let y := year + (month - 1) / 12 in
  let m := (month - 1) mod 12 + 1 in
  let wall := days_from_civil y m day * 86400 + hour * 3600 + min * 60 + sec in
  mkTime ((wall - l) * Second + nsec) l.

(** *** Arithmetic and comparison of instants *)

Definition Add (t : Time) (d : Duration) : Time :=
  mkTime (unixNano t + d) (loc t).

(** [t.Sub(u)] saturates at the largest and smallest [Duration]. *)
Definition Sub (t u : Time) : Duration :=
  let d := unixNano t - unixNano u in
  if d <? minInt64 then minInt64
  else if maxInt64 <? d then maxInt64 else d.

Definition After (t u : Time) : bool := unixNano u <? unixNano t.
Definition Before (t u : Time) : bool := unixNano t <? unixNano u.

(** Seconds between the zero Time (January 1, year 1, 00:00 UTC) and the
    Unix epoch. *)
Definition unixToInternal : Z := 62135596800.

(** [t.Truncate(d)]: [t] rounded down to a multiple of [d] since the zero
    Time.  It works on the absolute instant, not on the presentation of
    [t] in its Location, which it keeps. *)
Definition Truncate (t : Time) (d : Duration) : Time :=
  if d <=? 0 then t
  else Add t (- ((unixNano t + unixToInternal * Second) mod d)).

End GoTime.

(* ===================================================================== *)
(** ** Packages [unicode/utf8], [fmt] and [strings]                       *)
(* ===================================================================== *)

Module GoUtf8.

(** A [rune] is a Unicode code point. *)
Definition rune : Type := Z.

Definition byteOf (c : ascii) : Z := Z.of_N (N_of_ascii c).

Definition RuneError : rune := 0xFFFD.

(** [lo <= b <= hi], the test of a continuation byte against its accept
    range. *)
Definition inRange (lo hi b : Z) : bool := (lo <=? b) && (b <=? hi).

(** [utf8.DecodeRuneInString]: the first rune of [s] and its width in
    bytes.  The empty string gives [(RuneError, 0)]; an encoding that is
    invalid (a stray continuation byte, an overlong form, a surrogate, a
    value above U+10FFFF) or cut short gives [(RuneError, 1)]. *)
Definition DecodeRuneInString (s : string) : rune * nat :=
  match s with
  | EmptyString => (RuneError, 0%nat)
  | String c0 rest0 =>
      let s0 := byteOf c0 in
      if s0 <? 0x80 then (s0, 1%nat)
      else if (s0 <? 0xC2) || (0xF4 <? s0) then (RuneError, 1%nat)
      else
        let sz := if s0 <? 0xE0 then 2 else if s0 <? 0xF0 then 3 else 4 in
        let lo := if s0 =? 0xE0 then 0xA0
                  else if s0 =? 0xF0 then 0x90 else 0x80 in
        let hi := if s0 =? 0xED then 0x9F
                  else if s0 =? 0xF4 then 0x8F else 0xBF in
        match rest0 with
        | EmptyString => (RuneError, 1%nat)
        | String c1 rest1 =>
            let s1 := byteOf c1 in
            if negb (inRange lo hi s1) then (RuneError, 1%nat)
            else if sz <=? 2 then
              (Z.lor (Z.shiftl (Z.land s0 0x1F) 6) (Z.land s1 0x3F), 2%nat)
            else
              match rest1 with
              | EmptyString => (RuneError, 1%nat)
              | String c2 rest2 =>
                  let s2 := byteOf c2 in
                  if negb (inRange 0x80 0xBF s2) then (RuneError, 1%nat)
                  else if sz <=? 3 then
                    (Z.lor (Z.lor (Z.shiftl (Z.land s0 0x0F) 12)
                                  (Z.shiftl (Z.land s1 0x3F) 6))
                           (Z.land s2 0x3F), 3%nat)
                  else
                    match rest2 with
                    | EmptyString => (RuneError, 1%nat)
                    | String c3 _ =>
                        let s3 := byteOf c3 in
                        if negb (inRange 0x80 0xBF s3)
                        then (RuneError, 1%nat)
                        else
                          (Z.lor (Z.lor (Z.lor
                                    (Z.shiftl (Z.land s0 0x07) 18)
                                    (Z.shiftl (Z.land s1 0x3F) 12))
                                    (Z.shiftl (Z.land s2 0x3F) 6))
                                 (Z.land s3 0x3F), 4%nat)
                    end
              end
        end
  end.

(** [s[n:]], empty when [s] is shorter. *)
Fixpoint from (n : nat) (s : string) : string :=
  match n, s with
  | S n', String _ s' => from n' s'
  | _, _ => s
  end.

(** The runes of [s] in the order successive calls of [ReadRune] deliver
    them; each call takes at least one byte, so the length of [s] is
    fuel enough. *)
Fixpoint readRunes (fuel : nat) (s : string) : list rune :=
  match fuel with
  | O => []
  | S fuel' =>
      match s with
      | EmptyString => []
      | String _ _ =>
          let (r, size) := DecodeRuneInString s in
          r :: readRunes fuel' (from size s)
      end
  end.

Definition runes (s : string) : list rune := readRunes (String.length s) s.

End GoUtf8.

Module GoFmt.
Import GoInt GoUtf8.

(** The table [space] of the scanner: the ranges of white space below
    U+10000, in ascending order. *)
Definition space : list (Z * Z) :=
  [ (0x0009, 0x000d); (0x0020, 0x0020); (0x0085, 0x0085); (0x00a0, 0x00a0);
    (0x1680, 0x1680); (0x2000, 0x200a); (0x2028, 0x2029); (0x202f, 0x202f);
    (0x205f, 0x205f); (0x3000, 0x3000) ].

(** The loop of [isSpace] over the table. *)
Fixpoint inTable (rx : Z) (table : list (Z * Z)) : bool :=
  match table with
  | [] => false
  | (lo, hi) :: table' =>
      if rx <? lo then false
      else if rx <=? hi then true
      else inTable rx table'
  end.

(** [isSpace]: the white space skipped by the scanner. *)
Definition isSpace (r : rune) : bool :=
  if 0x10000 <=? r then false else inTable r space.

Definition isNewline (r : rune) : bool := r =? 10.

Definition isDigit (r : rune) : bool := (48 <=? r) && (r <=? 57).

Definition isUnderscore (r : rune) : bool := r =? 95.

Definition isSign (r : rune) : bool := (r =? 43) || (r =? 45).

(** [SkipSpace] on the runes still to read: [None] is the error
    "unexpected newline" ([Sscanf] does not take a newline as space). *)
Fixpoint SkipSpace (s : list rune) : option (list rune) :=
  match s with
  | [] => Some s
  | r :: s' =>
      if isNewline r then None
      else if isSpace r then SkipSpace s'
      else Some s
  end.

(** [scanNumber]: the longest prefix made of decimal digits and
    underscores, and what follows it. *)
Fixpoint scanNumber (s : list rune) : list rune * list rune :=
  match s with
  | [] => ([], [])
  | r :: s' =>
      if isDigit r || isUnderscore r
      then let (tok, rest) := scanNumber s' in (r :: tok, rest)
      else ([], s)
  end.

(** Value of a run of decimal digits read after [acc]; an underscore is a
    syntax error of [strconv.ParseInt] in base 10. *)
Fixpoint parseDigits (tok : list rune) (acc : Z) : option Z :=
  match tok with
  | [] => Some acc
  | r :: tok' =>
      if isDigit r
      then parseDigits tok' (10 * acc + (r - 48))
      else None
  end.

(** The verb [%d] storing into an [int]: white space, an optional sign, at
    least one digit, and a value that fits 64 bits. *)
Definition scanInt (s : list rune) : option (Z * list rune) :=
  match SkipSpace s with
  | None => None
  | Some [] => None
  | Some ((r :: s') as s0) =>
      let negative := r =? 45 in
      let body := if isSign r then s' else s0 in
      match scanNumber body with
      | ([], _) => None
      | (tok, rest) =>
          match parseDigits tok 0 with
          | None => None
          | Some v =>
              let i := if negative then - v else v in
              if inInt64 i then Some (i, rest) else None
          end
      end
  end.

(** [fmt.Sscanf(str, "%d:%d", &a, &b)] with [a] and [b] declared by
    [var a, b int]: the two variables afterwards, and whether the error
    is nil.  Input after the second number is not read. *)
Definition Sscanf_d_colon_d (str : string) : Z * Z * bool :=
  match scanInt (runes str) with
  | None => (0, 0, false)
  | Some (a, rest) =>
      match rest with
      | r :: rest' =>
          if r =? 58 then
            match scanInt rest' with
            | None => (a, 0, false)
            | Some (b, _) => (a, b, true)
            end
          else (a, 0, false)
      | [] => (a, 0, false)
      end
  end.

(** The character of a decimal digit. *)
Definition digit (n : Z) : ascii := ascii_of_N (48 + Z.to_N n).

(** Decimal digits of a natural number put before [acc], most significant
    first; 20 digits of fuel cover 64 bits. *)
Fixpoint decimal (fuel : nat) (n : Z) (acc : string) : string :=
  match fuel with
  | O => acc
  | S fuel' =>
      let acc' := String (digit (n mod 10)) acc in
      if n <? 10 then acc' else decimal fuel' (n / 10) acc'
  end.

(** [%02d] of an integer: at least two characters, zero padded, the sign
    first. *)
Definition Sprintf_02d (n : Z) : string :=
  if n <? 0 then String "-"%char (decimal 20 (- n) EmptyString)
  else if n <? 10 then String "0"%char (decimal 20 n EmptyString)
  else decimal 20 n EmptyString.

(** [%d] of an integer. *)
Definition Sprintf_d (n : Z) : string :=
  if n <? 0 then String "-"%char (decimal 20 (- n) EmptyString)
  else decimal 20 n EmptyString.

End GoFmt.

Module GoStrings.

(** [strings.Split(s, sep)] for a separator of one byte. *)
Fixpoint Split (s : string) (sep : ascii) : list string :=
  match s with
  | EmptyString => [EmptyString]
  | String c s' =>
      if Ascii.eqb c sep then EmptyString :: Split s' sep
      else match Split s' sep with
           | p :: ps => String c p :: ps
           | [] => [String c EmptyString]
           end
  end.

End GoStrings.

(* ===================================================================== *)
(** ** Package [sort]                                                     *)
(* ===================================================================== *)

Module GoSort.
Section Slice.
Context {A : Type} (less : A -> A -> bool).

(** One step of insertion sort: [x] goes before the first element it is
    less than. *)
Fixpoint insert (x : A) (l : list A) : list A :=
  match l with
  | [] => [x]
  | y :: l' => if less x y then x :: y :: l' else y :: insert x l'
  end.

(** [sort.Slice(s, less)], as the insertion sort Go runs on slices of
    at most twelve elements.  On longer slices Go's sort may order
    elements that compare equal differently. *)
Definition Slice (l : list A) : list A :=
  fold_left (fun acc x => insert x acc) l [].
End Slice.
End GoSort.

(* ===================================================================== *)
(** ** [config/validator.go]                                              *)
(* ===================================================================== *)

Module Config.
Import GoInt GoTime GoFmt GoStrings.

(** [timeOfDay] represents a time within a day. *)
Record timeOfDay : Type := mkTimeOfDay { hour : Z; min : Z }.

(** [toTime] converts to a [time.Time] (the date portion is arbitrary). *)
Definition toTime (tod : timeOfDay) : Time :=
  Date 2000 1 1 (hour tod) (min tod) 0 0 UTC.

(** [formatTime] formats a [time.Time] as HH:MM. *)
Definition formatTime (t : Time) : string :=
  (Sprintf_02d (Hour_ t) ++ ":" ++ Sprintf_02d (Minute_ t))%string.

(** [parseTime] parses HH:MM; the error of [Sscanf] is dropped. *)
Definition parseTime (t : string) : Z * Z :=
  let '(hour, min, _) := Sscanf_d_colon_d t in (hour, min).

(** [isValidTimeFormat] checks if the time string is in HH:MM format. *)
Definition isValidTimeFormat (t : string) : bool :=
  let parts := Split t ":"%char in
  if negb (Nat.eqb (List.length parts) 2) then false
  else
    let '(hour, min, ok) := Sscanf_d_colon_d t in
    if negb ok then false
    else (0 <=? hour) && (hour <=? 23) && (0 <=? min) && (min <=? 59).

(** [isTimeInRange] checks if [t] is in [[start, end)]. *)
Definition isTimeInRange (t start end_ : Time) : bool :=
  let tSec := Hour_ t * 3600 + Minute_ t * 60 + Second_ t in
  let startSec := Hour_ start * 3600 + Minute_ start * 60 + Second_ start in
  let endSec := Hour_ end_ * 3600 + Minute_ end_ * 60 + Second_ end_ in
  if startSec <? endSec then
    (startSec <=? tSec) && (tSec <? endSec)
  else
    (startSec <=? tSec) || (tSec <? endSec).

(** The arguments of the [fmt.Errorf] call that reports a conflict, in
    the order of its verbs (repeated arguments once). *)
Record ConflictError : Type := mkConflictError {
  timeA : string;          (* targetTimes[i] *)
  timeB : string;          (* targetTimes[j] *)
  triggerA : string;       (* formatTime(targetTrigger) *)
  triggerB : string;       (* formatTime(otherTrigger) *)
  windowStart : string;    (* formatTime(otherTrigger) *)
  windowEnd : string;      (* formatTime(quotaEnd) *)
  spacingHours : Z         (* intervalHours *)
}.

(** The message [fmt.Errorf] builds from them. *)
Definition Error (e : ConflictError) : string :=
  let nl := String (ascii_of_N 10) EmptyString in
  ("conflicting target times: " ++ timeA e ++ " and " ++ timeB e ++ nl ++
   "  Trigger for " ++ timeA e ++ " would be at " ++ triggerA e ++ nl ++
   "  Trigger for " ++ timeB e ++ " would be at " ++ triggerB e ++ nl ++
   "  The second trigger falls within the first quota's validity period [" ++
     windowStart e ++ ", " ++ windowEnd e ++ ")" ++ nl ++
   "  Please ensure target times are at least " ++
     Sprintf_d (spacingHours e) ++ " hours apart")%string.

(** The comparison given to [sort.Slice]. *)
Definition lessTimeOfDay (a b : timeOfDay) : bool :=
  if negb (hour a =? hour b) then hour a <? hour b else min a <? min b.

Definition zeroTimeOfDay : timeOfDay := mkTimeOfDay 0 0.

Section Loops.
Variable targetTimes : list string.
Variable parsedTimes : list timeOfDay.
Variable intervalHours : Z.
Variable interval : Duration.

(** The loop over [j], for a fixed [i], on the indices still to visit. *)
Fixpoint checkOthers (i : nat) (targetTrigger : Time) (js : list nat)
  : option ConflictError :=
  match js with
  | [] => None
  | j :: js' =>
      if Nat.eqb i j then checkOthers i targetTrigger js'
      else
        let otherTrigger :=
          Add (toTime (nth j parsedTimes zeroTimeOfDay)) (neg interval) in
        let quotaEnd := Add otherTrigger interval in
        if isTimeInRange targetTrigger otherTrigger quotaEnd then
          Some (mkConflictError
                  (nth i targetTimes EmptyString)
                  (nth j targetTimes EmptyString)
                  (formatTime targetTrigger)
                  (formatTime otherTrigger)
                  (formatTime otherTrigger)
                  (formatTime quotaEnd)
                  intervalHours)
        else checkOthers i targetTrigger js'
  end.

(** The loop over [i]. *)
Fixpoint checkAll (is_ : list nat) : option ConflictError :=
  match is_ with
  | [] => None
  | i :: is' =>
      let targetTrigger :=
        Add (toTime (nth i parsedTimes zeroTimeOfDay)) (neg interval) in
      match checkOthers i targetTrigger (seq 0 (List.length parsedTimes)) with
      | Some e => Some e
      | None => checkAll is'
      end
  end.
End Loops.

(** What the first loop stores for a target string. *)
Definition parsedOf (t : string) : timeOfDay :=
  let (hour, min) := parseTime t in mkTimeOfDay hour min.

(** [validateTargetTimesConflict] checks if trigger times conflict with
    each other; [None] is the nil error. *)
Definition validateTargetTimesConflict
    (targetTimes : list string) (intervalHours : Z) : option ConflictError :=
  let parsedTimes := map parsedOf targetTimes in
  let parsedTimes := GoSort.Slice lessTimeOfDay parsedTimes in
  let interval := durationOf intervalHours Hour in
  checkAll targetTimes parsedTimes intervalHours interval
           (seq 0 (List.length parsedTimes)).

End Config.

(* ===================================================================== *)
(** ** [scheduler/calculator.go]                                          *)
(* ===================================================================== *)

Module Scheduler.
Import GoInt GoTime GoFmt.

(** [DailyTrigger] represents a single trigger time for a day. *)
Record DailyTrigger : Type := mkDailyTrigger {
  TargetTime : string;   (* original target time, e.g. "14:00" *)
  TriggerTime : Time     (* when to trigger, e.g. 09:01 *)
}.

(** The trigger a target string contributes: none when it does not scan. *)
Definition triggerOf (date : Time) (interval buffer : Duration)
    (targetStr : string) : list DailyTrigger :=
  let '(hour, min, ok) := Sscanf_d_colon_d targetStr in
  if negb ok then []
  else
    let targetTime :=
      Date (Year date) (Month date) (Day date) hour min 0 0 (loc date) in
    let triggerTime := Add (Add targetTime (neg interval)) buffer in
    [mkDailyTrigger targetStr triggerTime].

Definition lessTrigger (a b : DailyTrigger) : bool :=
  Before (TriggerTime a) (TriggerTime b).

(** [CalculateDailyTriggers] calculates all trigger times for a given
    day: target_time - interval_hours + buffer_seconds, sorted. *)
Definition CalculateDailyTriggers (date : Time) (targetTimes : list string)
    (intervalHours bufferSeconds : Z) : list DailyTrigger :=
  let interval := durationOf intervalHours Hour in
  let buffer := durationOf bufferSeconds Second in
  let triggers := flat_map (triggerOf date interval buffer) targetTimes in
  GoSort.Slice lessTrigger triggers.

(** [NextTrigger] finds the next trigger time from now. *)
Definition NextTrigger (now : Time) (targetTimes : list string)
    (intervalHours bufferSeconds : Z) : DailyTrigger * Time :=
  let today := Truncate now (24 * Hour) in
  let triggers :=
    CalculateDailyTriggers today targetTimes intervalHours bufferSeconds in
  match find (fun t => After (TriggerTime t) now) triggers with
  | Some t => (t, today)
  | None =>
      let tomorrow := Add today (24 * Hour) in
      let triggers :=
        CalculateDailyTriggers tomorrow targetTimes intervalHours
                               bufferSeconds in
      match triggers with
      | t :: _ => (t, tomorrow)
      | [] =>
          (mkDailyTrigger EmptyString (Add now (24 * Hour)), tomorrow)
      end
  end.

End Scheduler.

(* ===================================================================== *)
(** ** [scheduler/scheduler.go]: the scheduling loop                      *)
(* ===================================================================== *)

Module Loop.
Import GoInt GoTime Scheduler.
Import ITree.ITree ITree.ITreeFacts ITreeNotations.
Local Open Scope itree_scope.

(** [config.SchedulerConfig]. *)
Record SchedulerConfig : Type := mkSchedulerConfig {
  IntervalHours : Z;
  TargetTimes : list string;
  SafetyBufferSeconds : Z
}.

(** Go's [error] values met by the loop. *)
Inductive error : Type :=
| Canceled                    (* context.Canceled *)
| DeadlineExceeded            (* context.DeadlineExceeded *)
| errorString (msg : string). (* any other error *)

(** [d.Round(m)]: [d] rounded to the nearest multiple of [m], halves away
    from zero. *)
Definition Round (d m : Duration) : Duration :=
  if m <=? 0 then d
  else
    let r := Z.rem d m in
    if d <? 0 then
      let r := - r in
      if r + r <? m then wrap64 (d + r)
      else
        let d1 := wrap64 (d - m + r) in
        if d1 <? d then d1 else minInt64
    else
      if r + r <? m then d - r
      else
        let d1 := wrap64 (d + m - r) in
        if d <? d1 then d1 else maxInt64.

(** The calls of [log.Printf], with their arguments. *)
Inductive LogMsg : Type :=
| LogStarted (platform : string)
| LogSettings (targets : string) (intervalHours bufferSeconds : Z)
| LogFirstTrigger (at_ : Time) (target : string)
| LogWaiting (rounded : Duration)
| LogTriggering (platform target : string)
| LogTriggerFailed (err : error)
| LogTriggerCompleted
| LogNextTrigger (at_ : Time) (target : string).

(** What [Start] asks of its collaborators: the clock, the context, the
    timer, the platform and the logger. *)
Variant schedE : Type -> Type :=
| TimeNow : schedE Time
    (* time.Now() *)
| CtxDone : schedE bool
    (* select { case <-ctx.Done(): ...; default: }: is Done closed *)
| WaitTimerOrDone (d : Duration) : schedE bool
    (* select { case <-time.After(d): ; case <-ctx.Done(): }: true when
       the timer fired, false when Done was received *)
| CtxErr : schedE error
    (* ctx.Err() *)
| PlatformName : schedE string
    (* s.platform.Name() *)
| PlatformTrigger : schedE (option error)
    (* s.platform.Trigger(ctx): None is nil *)
| LogPrintf (m : LogMsg) : schedE unit.

Definition computeNext (cfg : SchedulerConfig) (now : Time) : DailyTrigger :=
  fst (NextTrigger now (TargetTimes cfg) (IntervalHours cfg)
                   (SafetyBufferSeconds cfg)).

(** One pass through the body of the [for] loop: [inl] carries the value
    of [nextTrigger] into the next pass, [inr] is the value returned. *)
Definition iteration (cfg : SchedulerConfig) (nextTrigger : DailyTrigger)
  : itree schedE (DailyTrigger + error) :=
  done <- ITree.trigger CtxDone ;;
  if (done : bool) then
    e <- ITree.trigger CtxErr ;; Ret (inr e)
  else
    now <- ITree.trigger TimeNow ;;
    fire <- (if After (TriggerTime nextTrigger) now then
               let duration := Sub (TriggerTime nextTrigger) now in
               ITree.trigger
                 (LogPrintf (LogWaiting (Round duration Second))) ;;
               ITree.trigger (WaitTimerOrDone duration)
             else Ret true) ;;
    if (fire : bool) then
      name <- ITree.trigger PlatformName ;;
      ITree.trigger
        (LogPrintf (LogTriggering name (TargetTime nextTrigger))) ;;
      err <- ITree.trigger PlatformTrigger ;;
      match err with
      | Some e => ITree.trigger (LogPrintf (LogTriggerFailed e))
      | None => ITree.trigger (LogPrintf LogTriggerCompleted)
      end ;;
      now' <- ITree.trigger TimeNow ;;
      let nextTrigger' := computeNext cfg now' in
      ITree.trigger
        (LogPrintf (LogNextTrigger (TriggerTime nextTrigger')
                                   (TargetTime nextTrigger'))) ;;
      Ret (inl nextTrigger')
    else
      e <- ITree.trigger CtxErr ;; Ret (inr e).

(** The [for] loop. *)
Definition mainLoop (cfg : SchedulerConfig) (nextTrigger : DailyTrigger)
  : itree schedE error :=
  ITree.iter (iteration cfg) nextTrigger.


(** *** An environment to run the loop in *)

(** The answers of the collaborators, by the number of the call. *)
Record Env : Type := mkEnv {
  clock : nat -> Time;
  doneAtPoll : nat -> bool;
  timerFires : nat -> bool;
  ctxErr : error;
  platformName : string;
  triggerResult : nat -> option error
}.

(** What has happened so far: the calls made and the lines logged. *)
Record Run : Type := mkRun {
  nNow : nat;
  nPoll : nat;
  nWait : nat;
  nTrigger : nat;       (* invocations of the external action *)
  logged : list LogMsg
}.

(** The answer to one request, and the record after it. *)
Definition respond (env : Env) {X : Type} (e : schedE X) (r : Run)
  : Run * X :=
  match e with
  | TimeNow =>
      (mkRun (S (nNow r)) (nPoll r) (nWait r) (nTrigger r) (logged r),
       clock env (nNow r))
  | CtxDone =>
      (mkRun (nNow r) (S (nPoll r)) (nWait r) (nTrigger r) (logged r),
       doneAtPoll env (nPoll r))
  | WaitTimerOrDone _ =>
      (mkRun (nNow r) (nPoll r) (S (nWait r)) (nTrigger r) (logged r),
       timerFires env (nWait r))
  | CtxErr => (r, ctxErr env)
  | PlatformName => (r, platformName env)
  | PlatformTrigger =>
      (mkRun (nNow r) (nPoll r) (nWait r) (S (nTrigger r)) (logged r),
       triggerResult env (nTrigger r))
  | LogPrintf m =>
      (mkRun (nNow r) (nPoll r) (nWait r) (nTrigger r) (logged r ++ [m]),
       tt)
  end.

Definition inEnv (env : Env) : schedE ~> Monads.stateT Run (itree void1) :=
  fun _ e r => Ret (respond env e r).

(** The record after a pass in which the action was invoked, [outcome]
    being the line logged for its result. *)
Definition afterFiring (env : Env) (cfg : SchedulerConfig)
    (nextTrigger : DailyTrigger) (r : Run) (outcome : LogMsg) : Run :=
  let now := clock env (nNow r) in
  let waits := After (TriggerTime nextTrigger) now in
  let next := computeNext cfg (clock env (S (nNow r))) in
  mkRun (S (S (nNow r))) (S (nPoll r))
        (if waits then S (nWait r) else nWait r)
        (S (nTrigger r))
        ((if waits
          then logged r ++
               [LogWaiting (Round (Sub (TriggerTime nextTrigger) now) Second)]
          else logged r) ++
         [LogTriggering (platformName env) (TargetTime nextTrigger)] ++
         [outcome] ++
         [LogNextTrigger (TriggerTime next) (TargetTime next)]).

(** The loop run in [env] from the record [r]. *)
Definition runLoop (env : Env) (cfg : SchedulerConfig)
    (nextTrigger : DailyTrigger) (r : Run) : itree void1 (Run * error) :=
  State.interp_state (inEnv env) (mainLoop cfg nextTrigger) r.

(** *** Two environments, at 16:00 UTC on 2025-02-19 *)

Definition exampleCfg : SchedulerConfig :=
  mkSchedulerConfig 5 ["09:00"; "14:00"; "19:00"]%string 60.

Definition exampleTrigger : DailyTrigger :=
  mkDailyTrigger "09:00" (Date 2025 2 20 4 1 0 0 UTC).

Definition freshRun : Run := mkRun 0 0 0 0 [].

(** The context is cancelled during the first wait. *)
Definition cancelledEnv : Env :=
  mkEnv (fun _ => Date 2025 2 19 16 0 0 0 UTC)
        (fun _ => false) (fun _ => false)
        Canceled "anthropic" (fun _ => None).

(** The timer fires and every request of the platform fails. *)
Definition failingEnv : Env :=
  mkEnv (fun _ => Date 2025 2 19 16 0 0 0 UTC)
        (fun _ => false) (fun _ => true)
        Canceled "anthropic"
        (fun _ => Some (errorString "request failed after retries")).

End Loop.

(* ===================================================================== *)
(** ** The specification's vocabulary                                     *)
(* ===================================================================== *)

Module Spec.
Import GoInt GoTime Config Scheduler.

(** A target-time string the configuration accepts. *)
Definition wellFormed (target : string) : Prop :=
  isValidTimeFormat target = true.

(** Time of day of a [Time], in seconds since midnight in its Location. *)
Definition secOfDay (t : Time) : Z := wallSec t mod 86400.

(** Section 4.1 in the specification's words: ordinary containment if
    [start <= end], spanning midnight if [start > end]. *)
Definition inInterval (t start end_ : Z) : bool :=
  if start <=? end_ then (start <=? t) && (t <? end_)
  else (start <=? t) || (t <? end_).

(** The same test with the boundary moved: ordinary containment if
    [start < end], spanning midnight if [start >= end]. *)
Definition inWindow (t start end_ : Z) : bool :=
  if start <? end_ then (start <=? t) && (t <? end_)
  else (start <=? t) || (t <? end_).

(** Section 4.2, step 2: times of day in seconds, modulo 24 hours. *)
Definition todSeconds (target : string) : Z :=
  let (hour, min) := parseTime target in hour * 3600 + min * 60.

Definition triggerTod (intervalHours : Z) (target : string) : Z :=
  (todSeconds target - intervalHours * 3600) mod 86400.

Definition quotaEndTod (intervalHours : Z) (target : string) : Z :=
  (triggerTod intervalHours target + intervalHours * 3600) mod 86400.

(** Seconds since midnight of a parsed time. *)
Definition todOf (a : timeOfDay) : Z := hour a * 3600 + min a * 60.

(** [R] holds at every ordered pair of distinct positions of [l]. *)
Definition AtDistinct {A : Type} (R : A -> A -> Prop) (l : list A) : Prop :=
  forall (i j : nat) (a b : A),
    i <> j -> nth_error l i = Some a -> nth_error l j = Some b -> R a b.

(** Section 4.2, steps 3 and 4: no ordered pair of distinct positions has
    the first trigger inside the window of the second, for a given
    containment test. *)
Definition NoConflict (contains : Z -> Z -> Z -> bool)
    (targetTimes : list string) (intervalHours : Z) : Prop :=
  forall (i j : nat) (a b : string),
    i <> j ->
    nth_error targetTimes i = Some a ->
    nth_error targetTimes j = Some b ->
    contains (triggerTod intervalHours a) (triggerTod intervalHours b)
             (quotaEndTod intervalHours b) = false.

(** Interval lengths whose nanosecond count fits a [Duration]. *)
Definition hoursFit (intervalHours : Z) : Prop :=
  - 2562047 <= intervalHours <= 2562047.

Definition secondsFit (bufferSeconds : Z) : Prop :=
  - 9223372036 <= bufferSeconds <= 9223372036.

(** The test the validator applies to the ordered pair ([a], [b]) of
    parsed times. *)
Definition pairConflicts (intervalHours : Z) (a b : timeOfDay) : bool :=
  let interval := durationOf intervalHours Hour in
  let targetTrigger := Add (toTime a) (neg interval) in
  let otherTrigger := Add (toTime b) (neg interval) in
  let quotaEnd := Add otherTrigger interval in
  isTimeInRange targetTrigger otherTrigger quotaEnd.

(** The start of the calendar day of [t] in its Location. *)
Definition startOfDay (t : Time) : Time :=
  Date (Year t) (Month t) (Day t) 0 0 0 0 (loc t).

(** The instant [hour]:[min]:00 on the calendar day of [date], moved by
    [offsetSeconds]. *)
Definition atTimeOfDay (date : Time) (hour min offsetSeconds : Z) : Time :=
  mkTime ((dayNumber date * 86400 + hour * 3600 + min * 60 - loc date
           + offsetSeconds) * Second) (loc date).

(** Section 4.3: (date at target time) - intervalHours + bufferSeconds. *)
Definition triggerInstant (date : Time) (intervalHours bufferSeconds : Z)
    (target : string) : Time :=
  let (hour, min) := parseTime target in
  atTimeOfDay date hour min (bufferSeconds - intervalHours * 3600).

Definition triggerFor (date : Time) (intervalHours bufferSeconds : Z)
    (target : string) : DailyTrigger :=
  mkDailyTrigger target
    (triggerInstant date intervalHours bufferSeconds target).

(** The trigger at [hour]:[min] of the day numbered [d], in the zone at
    offset [l]. *)
Definition triggerOn (d : Z) (l : Location) (hour min : Z) (target : string)
  : DailyTrigger :=
  mkDailyTrigger target
    (mkTime ((d * 86400 + hour * 3600 + min * 60 - l) * Second) l).

(** The targets of the specification's examples. *)
Definition exampleTargets : list string :=
  ["09:00"; "14:00"; "19:00"]%string.

(** Ascending order of trigger instants. *)
Definition notLater (a b : DailyTrigger) : Prop :=
  unixNano (TriggerTime a) <= unixNano (TriggerTime b).

(** Section 4.3 in the specification's words: today is the start of the
    day of [now] in local time; the earliest of today's triggers strictly
    after [now], else the earliest of tomorrow's. *)
Definition nextTrigger (now : Time) (targetTimes : list string)
    (intervalHours bufferSeconds : Z) : option DailyTrigger :=
  let today := startOfDay now in
  let todays :=
    CalculateDailyTriggers today targetTimes intervalHours bufferSeconds in
  match List.find (fun t => After (TriggerTime t) now) todays with
  | Some t => Some t
  | None =>
      let tomorrow := Add today (24 * Hour) in
      List.hd_error
        (CalculateDailyTriggers tomorrow targetTimes intervalHours
                                bufferSeconds)
  end.

End Spec.

(* ===================================================================== *)
(** ** [config/config.go]                                                 *)
(* ===================================================================== *)

Module ConfigFile.
Import Loop.

(** A value of type [any] as the YAML decoder stores it: a string, an
    integer, or something else. *)
Inductive any : Type :=
| anyString (s : string)
| anyInt (n : Z)
| anyOther.

(** A [map[string]any]: nil, or its bindings.  A key is looked up at its
    first binding. *)
Definition Options : Type := option (list (string * any)).

Fixpoint assoc (key : string) (bindings : list (string * any)) : option any :=
  match bindings with
  | [] => None
  | (k, v) :: rest => if String.eqb k key then Some v else assoc key rest
  end.

(** [m[key]], with the flag of the comma-ok form as the option. *)
Definition lookup (m : Options) (key : string) : option any :=
  match m with
  | None => None
  | Some bindings => assoc key bindings
  end.

(** [PlatformConfig] holds platform-specific configuration. *)
Record PlatformConfig : Type := mkPlatformConfig {
  Type_ : string;
  BaseURL : string;
  Options_ : Options
}.

(** [Config] represents the application configuration; its scheduler part
    is the [SchedulerConfig] the loop reads. *)
Record Config : Type := mkConfig {
  Scheduler_ : SchedulerConfig;
  Platform_ : PlatformConfig
}.

(** The two ways [Load] fails, each wrapping the error it met. *)
Inductive LoadError : Type :=
| readFailed (err : error)     (* failed to read config file: %w *)
| parseFailed (err : error).   (* failed to parse config: %w *)

(** [Load] reads and parses the YAML configuration file.  [ReadFile] is
    [os.ReadFile]; [Unmarshal] is [yaml.Unmarshal] into a zero [Config]. *)
Definition Load (ReadFile : string -> error + string)
    (Unmarshal : string -> error + Config) (path : string)
  : LoadError + Config :=
  match ReadFile path with
  | inl err => inl (readFailed err)
  | inr data =>
      match Unmarshal data with
      | inl err => inl (parseFailed err)
      | inr cfg =>
          (* Set defaults *)
          let scheduler := Scheduler_ cfg in
          let scheduler :=
            if SafetyBufferSeconds scheduler =? 0
            then mkSchedulerConfig (IntervalHours scheduler)
                                   (TargetTimes scheduler) 60
            else scheduler in
          let platform := Platform_ cfg in
          let platform :=
            match Options_ platform with
            | None => mkPlatformConfig (Type_ platform) (BaseURL platform)
                                       (Some [])
            | Some _ => platform
            end in
          inr (mkConfig scheduler platform)
      end
  end.

End ConfigFile.

(* ===================================================================== *)
(** ** [config/validator.go]: the configuration as a whole                *)
(* ===================================================================== *)

Module Validation.
Import GoFmt Config Loop ConfigFile.

(** The errors of [Validate], one for each [fmt.Errorf]. *)
Inductive ValidationError : Type :=
| intervalNotPositive
| intervalTooLarge
| targetTimesRequired
| badTimeFormat (t : string)
| bufferNegative
| bufferTooLarge
| conflict (e : ConflictError)
| typeRequired
| typeNotSupported (type_ : string) (supported : string)
| baseURLRequired
| optionsRequired.

(** Their messages. *)
Definition Error (e : ValidationError) : string :=
  match e with
  | intervalNotPositive => "scheduler.interval_hours must be positive"
  | intervalTooLarge => "scheduler.interval_hours too large (max 168)"
  | targetTimesRequired =>
      "scheduler.target_times is required (at least one time)"
  | badTimeFormat t =>
      "scheduler.target_times must be in HH:MM format, got: " ++ t
  | bufferNegative => "scheduler.safety_buffer_seconds cannot be negative"
  | bufferTooLarge =>
      "scheduler.safety_buffer_seconds too large (max 3600)"
  | conflict c => Config.Error c
  | typeRequired => "platform.type is required"
  | typeNotSupported t supported =>
      "platform.type '" ++ t ++ "' is not supported (supported: " ++
      supported ++ ")"
  | baseURLRequired => "platform.base_url is required"
  | optionsRequired => "platform.options is required"
  end%string.

(** [ValidateScheduler] validates scheduler configuration. *)
Definition ValidateScheduler (c : Config) : option ValidationError :=
  let s := Scheduler_ c in
  if IntervalHours s <=? 0 then Some intervalNotPositive
  else if 168 <? IntervalHours s then Some intervalTooLarge
  else if Nat.eqb (List.length (TargetTimes s)) 0
  then Some targetTimesRequired
  else
    match List.find (fun t => negb (isValidTimeFormat t)) (TargetTimes s) with
    | Some t => Some (badTimeFormat t)
    | None =>
        if SafetyBufferSeconds s <? 0 then Some bufferNegative
        else if 3600 <? SafetyBufferSeconds s then Some bufferTooLarge
        else
          match validateTargetTimesConflict (TargetTimes s)
                                            (IntervalHours s) with
          | Some e => Some (conflict e)
          | None => None
          end
    end.

Definition supportedTypes : list string := ["anthropic"%string].

(** [ValidatePlatform] validates platform configuration. *)
Definition ValidatePlatform (c : Config) : option ValidationError :=
  let p := Platform_ c in
  if String.eqb (Type_ p) EmptyString then Some typeRequired
  else
    let supported := List.existsb (String.eqb (Type_ p)) supportedTypes in
    if negb supported
    then Some (typeNotSupported (Type_ p)
                                (String.concat ", " supportedTypes))
    else if String.eqb (BaseURL p) EmptyString then Some baseURLRequired
    else
      match Options_ p with
      | None => Some optionsRequired
      | Some _ => None
      end.

(** [Validate] validates the entire configuration. *)
Definition Validate (c : Config) : option ValidationError :=
  match ValidateScheduler c with
  | Some err => Some err
  | None =>
      match ValidatePlatform c with
      | Some err => Some err
      | None => None
      end
  end.

End Validation.

(* ===================================================================== *)
(** ** [platform/platform.go] and [platform/anthropic.go]                 *)
(* ===================================================================== *)

Module Platform.
Import GoInt GoTime Loop ConfigFile.

(** [PlatformInput] holds the input data needed to create a platform. *)
Record PlatformInput : Type := mkPlatformInput {
  inputType : string;
  inputBaseURL : string;
  inputOptions : Options
}.

(** [AnthropicPlatform] implements the Platform interface. *)
Record AnthropicPlatform : Type := mkAnthropicPlatform {
  baseURL : string;
  apiKey : string;
  model : string;
  timeout : Duration;
  maxRetries : Z
}.

Inductive NewPlatformError : Type :=
| apiKeyRequired                         (* from NewAnthropicPlatform *)
| UnsupportedPlatformError (type_ : string).

Definition asString (v : option any) : option string :=
  match v with Some (anyString s) => Some s | _ => None end.

Definition asInt (v : option any) : option Z :=
  match v with Some (anyInt n) => Some n | _ => None end.

(** [NewAnthropicPlatform] creates a new Anthropic platform instance. *)
Definition NewAnthropicPlatform (input : PlatformInput)
  : NewPlatformError + AnthropicPlatform :=
  match asString (lookup (inputOptions input) "api_key") with
  | None => inl apiKeyRequired
  | Some apiKey =>
      let model :=
        match asString (lookup (inputOptions input) "model") with
        | Some model => model
        | None => "claude-3-5-sonnet-20241022"%string
        end in
      let timeout :=
        match asInt (lookup (inputOptions input) "timeout_seconds") with
        | Some timeoutSec => durationOf timeoutSec Second
        | None => 30 * Second
        end in
      let maxRetries :=
        match asInt (lookup (inputOptions input) "max_retries") with
        | Some retries => retries
        | None => 0
        end in
      inr (mkAnthropicPlatform (inputBaseURL input) apiKey model timeout
                               maxRetries)
  end.

(** [NewPlatform] creates a platform instance based on the configured
    type; the Anthropic platform is the one implementation. *)
Definition NewPlatform (input : PlatformInput)
  : NewPlatformError + AnthropicPlatform :=
  if String.eqb (inputType input) "anthropic"
  then NewAnthropicPlatform input
  else inl (UnsupportedPlatformError (inputType input)).

(** [Name] returns the platform name. *)
Definition Name (p : AnthropicPlatform) : string := "anthropic".

Inductive ConfigError : Type :=
| baseURLMissing     (* base_url is required *)
| apiKeyMissing      (* api_key is required *)
| modelMissing.      (* model is required *)

(** [ValidateConfig] validates the Anthropic-specific configuration. *)
Definition ValidateConfig (p : AnthropicPlatform) : option ConfigError :=
  if String.eqb (baseURL p) EmptyString then Some baseURLMissing
  else if String.eqb (apiKey p) EmptyString then Some apiKeyMissing
  else if String.eqb (model p) EmptyString then Some modelMissing
  else None.

(** What [Trigger] does besides returning, in order. *)
Inductive TriggerEvent : Type :=
| retryLogged (attempt maxRetries : Z)   (* Retry attempt %d/%d *)
| slept (d : Duration)                   (* time.Sleep *)
| requested                              (* p.doTrigger(ctx) *)
| failureLogged (number : Z) (err : error).  (* Attempt %d failed: %v *)

(** What [Trigger] returns: nil, or the error
    "trigger failed after %d attempts: %w". *)
Inductive TriggerResult : Type :=
| succeeded
| failedAfter (attempts : Z) (lastErr : option error).

Section Trigger.
(** The result of the k-th call of [doTrigger], a request over the
    network. *)
Variable doTrigger : nat -> option error.
Variable p : AnthropicPlatform.

(** The [for] loop of [Trigger] from the value [attempt] of its counter,
    [calls] requests having been made and [done] being what has happened;
    [fuel] bounds the passes, and [None] says it ran out. *)
Fixpoint retryLoop (fuel : nat) (attempt : Z) (calls : nat)
    (lastErr : option error) (done : list TriggerEvent)
  : option (TriggerResult * list TriggerEvent) :=
  if attempt <=? maxRetries p then
    match fuel with
    | O => None
    | S fuel' =>
        let done :=
          if 0 <? attempt
          then done ++ [retryLogged attempt (maxRetries p);
                        slept (durationOf attempt Second)]
          else done in
        let done := done ++ [requested] in
        match doTrigger calls with
        | None => Some (succeeded, done)
        | Some err =>
            retryLoop fuel' (wrap64 (attempt + 1)) (S calls) (Some err)
                      (done ++ [failureLogged (wrap64 (attempt + 1)) err])
        end
    end
  else Some (failedAfter (wrap64 (maxRetries p + 1)) lastErr, done).

(** [Trigger] sends a minimal request to activate the quota, with
    retries. *)
Definition Trigger (fuel : nat)
  : option (TriggerResult * list TriggerEvent) :=
  retryLoop fuel 0 0 None [].
End Trigger.

(** The requests among the events. *)
Definition requests (events : list TriggerEvent) : nat :=
  List.length
    (List.filter (fun e => match e with requested => true | _ => false end)
                 events).

(** The time slept among the events. *)
Definition sleptTotal (events : list TriggerEvent) : Z :=
  List.fold_right
    (fun e acc => match e with slept d => d + acc | _ => acc end) 0 events.

End Platform.

(* ===================================================================== *)
(** ** Vocabulary of the further properties                               *)
(* ===================================================================== *)

Module Derived.
Import GoInt GoTime GoFmt Config Scheduler Loop ConfigFile Validation Platform.

(** The text of [hour]:[min] as [formatTime] prints it. *)
Definition clockText (hour min : Z) : string :=
  (Sprintf_02d hour ++ ":" ++ Sprintf_02d min)%string.

(** [clockText] is accepted, is read back as [hour] and [min], and has
    five characters. *)
Definition roundTripsAt (hour min : Z) : bool :=
  isValidTimeFormat (clockText hour min) &&
  (let '(h, m, ok) := Sscanf_d_colon_d (clockText hour min) in
   (h =? hour) && (m =? min) && ok) &&
  (String.length (clockText hour min) =? 5)%nat.

Definition countUp (n : nat) : list Z := map Z.of_nat (seq 0 n).

(** The length the validator gives the window of a trigger, in seconds:
    the interval reduced modulo 24 hours. *)
Definition windowSeconds (intervalHours : Z) : Z :=
  (intervalHours * 3600) mod 86400.

(** Target [a] comes at least a window after target [b], going forward
    around the clock, and the window is not empty. *)
Definition apart (intervalHours : Z) (a b : string) : Prop :=
  windowSeconds intervalHours <> 0 /\
  windowSeconds intervalHours
  <= (Spec.todSeconds a - Spec.todSeconds b) mod 86400.

(** On a circle of [M] seconds, [b] comes at least [W] after [a] and at
    least [W] before [a] comes round again. *)
Definition gap (W M a b : Z) : Prop := a + W <= b <= a + M - W.

(** Does [fmt.Sscanf] read the target without error. *)
Definition scans (target : string) : bool :=
  let '(_, _, ok) := Sscanf_d_colon_d target in ok.

(** The [PlatformInput] that [main] builds from the configuration. *)
Definition inputOf (c : Config) : PlatformInput :=
  mkPlatformInput (Type_ (Platform_ c)) (BaseURL (Platform_ c))
                  (Options_ (Platform_ c)).

(** The first [n] results of [doTrigger] are failures. *)
Definition allFail (doTrigger : nat -> option error) (n : nat) : Prop :=
  forall k, (k < n)%nat -> doTrigger k <> None.

(** Seconds from the midnight that starts a day to the trigger of a
    target on that day; negative when the trigger falls on the day
    before. *)
Definition triggerOffset (intervalHours bufferSeconds : Z) (target : string)
  : Z :=
  Spec.todSeconds target + bufferSeconds - intervalHours * 3600.


(** *** Examples *)

Definition exampleConfig : Config :=
  mkConfig (mkSchedulerConfig 5 ["09:00"; "14:00"; "19:00"]%string 60)
           (mkPlatformConfig "anthropic" "https://api.anthropic.com"
              (Some [("api_key"%string, anyString "secret")])).

(** A platform with the default model and timeout and [retries]
    retries. *)
Definition examplePlatform (retries : Z) : AnthropicPlatform :=
  mkAnthropicPlatform "https://api.anthropic.com" "secret"
                      "claude-3-5-sonnet-20241022" (30 * Second) retries.

(** The first [n] requests fail, the others succeed. *)
Definition failsFirst (n : nat) (k : nat) : option error :=
  if (k <? n)%nat then Some (errorString "request failed") else None.

(** The trigger is due: the clock shows 05:00 UTC on 2025-02-20, an hour
    after it; the action succeeds. *)
Definition succeedingEnv : Env :=
  mkEnv (fun _ => Date 2025 2 20 5 0 0 0 UTC)
        (fun _ => false) (fun _ => false)
        Canceled "anthropic" (fun _ => None).

(** The context is done before the loop starts. *)
Definition stoppedEnv : Env :=
  mkEnv (fun _ => Date 2025 2 19 16 0 0 0 UTC)
        (fun _ => true) (fun _ => false)
        Canceled "anthropic" (fun _ => None).

End Derived.

(* ===================================================================== *)
(** * Properties                                                          *)
(* ===================================================================== *)

Ltac zdiv := Z.to_euclidean_division_equations; lia.

(** ** The model on the inputs of the documentation *)

Section ModelExamples.
Import GoTime GoUtf8 GoFmt GoStrings Config Scheduler.
Local Open Scope string_scope.
Local Open Scope Z_scope.

Example epoch_day : days_from_civil 1970 1 1 = 0.
Proof. reflexivity. Qed.

Example leap_day : civil_from_days 11016 = (2000, 2, 29).
Proof. reflexivity. Qed.

Example unix_2025_02_19 :
  Date 2025 2 19 16 0 0 0 UTC = mkTime (1739980800 * Second) UTC.
Proof. reflexivity. Qed.

Example day_overflow :
  Date 2025 2 29 0 0 0 0 UTC = Date 2025 3 1 0 0 0 0 UTC.
Proof. reflexivity. Qed.

Example scan_plain : Sscanf_d_colon_d "09:00" = (9, 0, true).
Proof. reflexivity. Qed.

Example scan_trailing : Sscanf_d_colon_d " 9:5 pm" = (9, 5, true).
Proof. reflexivity. Qed.

Example scan_underscore : Sscanf_d_colon_d "1_0:00" = (0, 0, false).
Proof. reflexivity. Qed.

Example scan_no_minute : Sscanf_d_colon_d "14:" = (14, 0, false).
Proof. reflexivity. Qed.

(** The euro sign, an overlong form and a rune cut short. *)
Example decode_three_bytes :
  DecodeRuneInString
    (String (ascii_of_N 226) (String (ascii_of_N 130)
       (String (ascii_of_N 172) "9"))) = (0x20AC, 3%nat).
Proof. reflexivity. Qed.

Example decode_overlong :
  DecodeRuneInString (String (ascii_of_N 192) (String (ascii_of_N 160) "9"))
  = (RuneError, 1%nat).
Proof. reflexivity. Qed.

Example decode_cut_short :
  DecodeRuneInString (String (ascii_of_N 226) (String (ascii_of_N 128) EmptyString))
  = (RuneError, 1%nat).
Proof. reflexivity. Qed.

(** White space outside ASCII is skipped too: a no-break space (U+00A0)
    and an ideographic space (U+3000) before the numbers. *)
Example scan_no_break_space :
  Sscanf_d_colon_d
    (String (ascii_of_N 194) (String (ascii_of_N 160) "09:00"))
  = (9, 0, true).
Proof. vm_compute. reflexivity. Qed.

Example scan_ideographic_space :
  Sscanf_d_colon_d
    ("09:" ++ String (ascii_of_N 227) (String (ascii_of_N 128)
                (String (ascii_of_N 128) "30")))
  = (9, 30, true).
Proof. vm_compute. reflexivity. Qed.

(** A continuation byte alone is not a space, and a newline is an error. *)
Example scan_stray_byte :
  Sscanf_d_colon_d (String (ascii_of_N 160) "09:00") = (0, 0, false).
Proof. vm_compute. reflexivity. Qed.

Example scan_newline :
  Sscanf_d_colon_d (String (ascii_of_N 10) "09:00") = (0, 0, false).
Proof. vm_compute. reflexivity. Qed.

Example valid_time : isValidTimeFormat "19:00" = true.
Proof. vm_compute. reflexivity. Qed.

Example hour_out_of_range : isValidTimeFormat "24:00" = false.
Proof. vm_compute. reflexivity. Qed.

Example three_fields : isValidTimeFormat "09:00:00" = false.
Proof. vm_compute. reflexivity. Qed.

Example format_0401 :
  formatTime (Date 2025 2 19 4 1 0 0 UTC) = "04:01".
Proof. vm_compute. reflexivity. Qed.

Example sort_times :
  GoSort.Slice lessTimeOfDay
    [mkTimeOfDay 19 0; mkTimeOfDay 9 0; mkTimeOfDay 11 30; mkTimeOfDay 9 0]
  = [mkTimeOfDay 9 0; mkTimeOfDay 9 0; mkTimeOfDay 11 30; mkTimeOfDay 19 0].
Proof. reflexivity. Qed.

Example accepted_configuration :
  validateTargetTimesConflict ["09:00"; "14:00"; "19:00"] 5 = None.
Proof. vm_compute. reflexivity. Qed.

Example rejected_configuration :
  option_map Error (validateTargetTimesConflict ["14:00"; "18:00"] 5) =
  Some (String.concat (String (ascii_of_N 10) EmptyString)
    ["conflicting target times: 18:00 and 14:00";
     "  Trigger for 18:00 would be at 13:00";
     "  Trigger for 14:00 would be at 09:00";
     "  The second trigger falls within the first quota's validity period [09:00, 14:00)";
     "  Please ensure target times are at least 5 hours apart"]).
Proof. vm_compute. reflexivity. Qed.
End ModelExamples.

(** ** The calendar and the clock *)

Section TimeFacts.
Import GoInt GoTime.

(** The day number is recovered from its civil date, and the month of a
    civil date lies between 1 and 12. *)
Lemma civil_roundtrip z :
  days_from_civil (fst (fst (civil_from_days z)))
                  (snd (fst (civil_from_days z)))
                  (snd (civil_from_days z)) = z
  /\ 1 <= snd (fst (civil_from_days z)) <= 12.
Proof.
  unfold civil_from_days.
  set (z' := z + 719468).
  set (era := z' / 146097).
  set (doe := z' - era * 146097).
  assert (Hdoe : 0 <= doe < 146097) by (subst doe era; zdiv).
  set (yoe := (doe - doe / 1460 + doe / 36524 - doe / 146096) / 365).
  assert (Hyoe : 0 <= yoe <= 399) by (subst yoe; zdiv).
  set (doy := doe - (365 * yoe + yoe / 4 - yoe / 100)).
  assert (Hdoy : 0 <= doy <= 365) by (subst doy yoe; zdiv).
  assert (Ez : z = era * 146097
                   + (yoe * 365 + yoe / 4 - yoe / 100 + doy) - 719468)
    by (subst doy doe z'; lia).
  clearbody doy yoe. clear Hdoe. clearbody era.
  set (mp := (5 * doy + 2) / 153).
  assert (Hmp : 0 <= mp <= 11) by (subst mp; zdiv).
  clearbody mp.
  assert (Eera : (yoe + era * 400) / 400 = era) by zdiv.
  cbn [fst snd].
  unfold days_from_civil.
  destruct (mp <? 10) eqn:Emp; [apply Z.ltb_lt in Emp | apply Z.ltb_ge in Emp].
  - replace (mp + 3 <=? 2) with false by (symmetry; apply Z.leb_gt; lia).
    replace (2 <? mp + 3) with true by (symmetry; apply Z.ltb_lt; lia).
    replace (mp + 3 - 3) with mp by lia.
    rewrite Eera. split; [|lia]. zdiv.
  - replace (mp - 9 <=? 2) with true by (symmetry; apply Z.leb_le; lia).
    replace (2 <? mp - 9) with false by (symmetry; apply Z.ltb_ge; lia).
    replace (mp - 9 + 9) with mp by lia.
    replace (yoe + era * 400 + 1 - 1) with (yoe + era * 400) by lia.
    rewrite Eera. split; [|lia]. zdiv.
Qed.

(** [time.Date] on the year, month and day of [t]: so many seconds after
    the midnight that starts the day of [t]. *)
Lemma Date_of_day (t : Time) (h mi s ns : Z) (l : Location) :
  Date (Year t) (Month t) (Day t) h mi s ns l =
  mkTime ((dayNumber t * 86400 + h * 3600 + mi * 60 + s - l) * Second + ns) l.
Proof.
  unfold Date, Year, Month, Day.
  destruct (civil_roundtrip (dayNumber t)) as [Hrt Hm].
  set (c := civil_from_days (dayNumber t)) in *.
  replace ((snd (fst c) - 1) / 12) with 0 by zdiv.
  replace ((snd (fst c) - 1) mod 12 + 1) with (snd (fst c)) by zdiv.
  rewrite Z.add_0_r, Hrt. reflexivity.
Qed.

Lemma secOfDay_clock (t : Time) :
  Hour_ t * 3600 + Minute_ t * 60 + Second_ t = Spec.secOfDay t.
Proof. unfold Hour_, Minute_, Second_, Spec.secOfDay. zdiv. Qed.

Lemma wrap64_fits z : minInt64 <= z <= maxInt64 -> wrap64 z = z.
Proof. unfold wrap64, minInt64, maxInt64. intros H. zdiv. Qed.

Lemma hours_duration h :
  Spec.hoursFit h -> durationOf h Hour = h * 3600 * Second.
Proof.
  unfold Spec.hoursFit, durationOf, Hour, Minute, Second. intros H.
  rewrite wrap64_fits; unfold minInt64, maxInt64; lia.
Qed.

Lemma seconds_duration b :
  Spec.secondsFit b -> durationOf b Second = b * Second.
Proof.
  unfold Spec.secondsFit, durationOf, Second. intros H.
  rewrite wrap64_fits; unfold minInt64, maxInt64; lia.
Qed.

Lemma neg_hours h :
  Spec.hoursFit h -> neg (h * 3600 * Second) = - (h * 3600 * Second).
Proof.
  unfold Spec.hoursFit, neg, Second. intros H.
  rewrite wrap64_fits; unfold minInt64, maxInt64; lia.
Qed.
End TimeFacts.

(** ** Containment in a window of the day *)

Section Containment.
Import GoTime Config.

(** The code's test, on seconds since midnight. *)
Lemma isTimeInRange_inWindow (t start end_ : Time) :
  isTimeInRange t start end_ =
  Spec.inWindow (Spec.secOfDay t) (Spec.secOfDay start) (Spec.secOfDay end_).
Proof.
  unfold isTimeInRange, Spec.inWindow. now rewrite !secOfDay_clock.
Qed.

Lemma inWindow_degenerate t s : Spec.inWindow t s s = true.
Proof.
  unfold Spec.inWindow. rewrite Z.ltb_irrefl.
  destruct (s <=? t) eqn:E; [reflexivity|].
  apply Z.leb_gt in E. cbn. now apply Z.ltb_lt.
Qed.
End Containment.

(** ** Sorting *)

Section SortFacts.
Context {A : Type} (less : A -> A -> bool).

Lemma insert_perm x l : Permutation (GoSort.insert less x l) (x :: l).
Proof.
  induction l as [|y l IH]; cbn; [reflexivity|].
  destruct (less x y); [reflexivity|].
  rewrite IH. apply perm_swap.
Qed.

Lemma fold_insert_perm l acc :
  Permutation (fold_left (fun acc x => GoSort.insert less x acc) l acc)
              (l ++ acc).
Proof.
  revert acc. induction l as [|x l IH]; intros acc; cbn; [reflexivity|].
  rewrite IH, insert_perm. symmetry. apply Permutation_middle.
Qed.

Lemma Slice_perm l : Permutation (GoSort.Slice less l) l.
Proof.
  unfold GoSort.Slice. rewrite fold_insert_perm. now rewrite app_nil_r.
Qed.

(** Sortedness, for a comparison that is the strict part of a total
    preorder [le]. *)
Variable le : A -> A -> Prop.
Hypothesis le_trans : forall x y z, le x y -> le y z -> le x z.
Hypothesis less_le : forall x y, less x y = true -> le x y.
Hypothesis not_less_le : forall x y, less x y = false -> le y x.

Lemma insert_sorted x l :
  StronglySorted le l -> StronglySorted le (GoSort.insert less x l).
Proof.
  induction 1 as [|y l Hs IH Hy]; cbn.
  - constructor; constructor.
  - destruct (less x y) eqn:E.
    + constructor; [constructor; assumption|].
      constructor; [now apply less_le|].
      eapply Forall_impl; [|exact Hy].
      intros z Hz. eapply le_trans; [apply less_le; exact E|exact Hz].
    + constructor; [exact IH|].
      eapply Permutation_Forall; [symmetry; apply insert_perm|].
      constructor; [now apply not_less_le|exact Hy].
Qed.

Lemma fold_insert_sorted l acc :
  StronglySorted le acc ->
  StronglySorted le (fold_left (fun acc x => GoSort.insert less x acc) l acc).
Proof.
  revert acc. induction l as [|x l IH]; intros acc Hacc; cbn; [exact Hacc|].
  apply IH, insert_sorted, Hacc.
Qed.

Lemma Slice_sorted l : StronglySorted le (GoSort.Slice less l).
Proof. apply fold_insert_sorted. constructor. Qed.
End SortFacts.

(** ** Pairs of distinct positions of a list *)

Section Pairs.
Context {A : Type} (R : A -> A -> Prop).

Let both (a b : A) : Prop := R a b /\ R b a.

Lemma AtDistinct_ordpairs l :
  Spec.AtDistinct R l <-> ForallOrdPairs both l.
Proof.
  induction l as [|x l IH].
  - split; [constructor|]. intros _ [|i] j a b _ Hi; discriminate.
  - split.
    + intros H. constructor.
      * apply Forall_forall. intros y Hy.
        destruct (In_nth_error _ _ Hy) as [k Hk].
        split; [apply (H 0%nat (S k)) | apply (H (S k) 0%nat)];
          (discriminate || assumption || reflexivity).
      * apply IH. intros i j a b Hij Hi Hj.
        apply (H (S i) (S j)); auto.
    + intros H. inversion H as [|? ? Hx Hl]; subst.
      rewrite Forall_forall in Hx. apply IH in Hl.
      intros [|i] [|j] a b Hij Hi Hj; cbn in Hi, Hj.
      * congruence.
      * injection Hi as <-. apply Hx. eapply nth_error_In; eauto.
      * injection Hj as <-. apply Hx. eapply nth_error_In; eauto.
      * apply (Hl i j); auto.
Qed.

Lemma ordpairs_perm l l' :
  Permutation l l' -> ForallOrdPairs both l -> ForallOrdPairs both l'.
Proof.
  induction 1 as [|x l l' Hp IH|x y l|l l' l'' _ IH1 _ IH2]; intros H.
  - exact H.
  - inversion H; subst. constructor; [|auto].
    eapply Permutation_Forall; eauto.
  - inversion H as [|? ? Hy Hxl]; subst.
    inversion Hxl as [|? ? Hx Hl]; subst.
    inversion Hy as [|? ? Hyx Hyl]; subst.
    constructor; [|constructor; assumption].
    constructor; [|assumption].
    destruct Hyx; split; assumption.
  - auto.
Qed.

Lemma AtDistinct_perm l l' :
  Permutation l l' -> Spec.AtDistinct R l <-> Spec.AtDistinct R l'.
Proof.
  intros Hp. rewrite !AtDistinct_ordpairs.
  split; apply ordpairs_perm; [assumption | now symmetry].
Qed.
End Pairs.

Lemma AtDistinct_map {A B : Type} (f : A -> B) (R : B -> B -> Prop) l :
  Spec.AtDistinct R (map f l)
  <-> Spec.AtDistinct (fun a b => R (f a) (f b)) l.
Proof.
  unfold Spec.AtDistinct. split; intros H i j a b Hij Hi Hj.
  - apply (H i j); auto; rewrite nth_error_map;
      [rewrite Hi|rewrite Hj]; reflexivity.
  - rewrite nth_error_map in Hi, Hj.
    destruct (nth_error l i) as [a'|] eqn:Ei; [|discriminate].
    destruct (nth_error l j) as [b'|] eqn:Ej; [|discriminate].
    injection Hi as <-. injection Hj as <-. apply (H i j); auto.
Qed.

(** ** The conflict validator *)

Section Validator.
Import GoInt GoTime GoFmt Config.

Lemma toTime_unix a :
  toTime a = mkTime ((10957 * 86400 + Spec.todOf a) * Second) UTC.
Proof.
  unfold toTime, Date, Spec.todOf, UTC.
  replace (days_from_civil (2000 + (1 - 1) / 12) ((1 - 1) mod 12 + 1) 1)
    with 10957 by reflexivity.
  f_equal. lia.
Qed.

(** The validator's test on a pair, as arithmetic modulo 24 hours. *)
Lemma pairConflicts_tod h a b :
  Spec.hoursFit h ->
  Spec.pairConflicts h a b =
  Spec.inWindow ((Spec.todOf a - h * 3600) mod 86400)
                ((Spec.todOf b - h * 3600) mod 86400)
                (((Spec.todOf b - h * 3600) mod 86400 + h * 3600) mod 86400).
Proof.
  intros Hh. unfold Spec.pairConflicts.
  rewrite isTimeInRange_inWindow, hours_duration, neg_hours by assumption.
  rewrite !toTime_unix.
  unfold Spec.secOfDay, wallSec, unixSec, Add, UTC, Second; cbn [unixNano loc].
  f_equal; zdiv.
Qed.

Section LoopFacts.
Variable targetTimes : list string.
Variable parsedTimes : list timeOfDay.
Variable intervalHours : Z.

Let interval := durationOf intervalHours Hour.
Let at_ (i : nat) := nth i parsedTimes zeroTimeOfDay.
Let test (i j : nat) : bool :=
  Spec.pairConflicts intervalHours (at_ i) (at_ j).

Lemma checkOthers_step i j js :
  checkOthers targetTimes parsedTimes intervalHours interval i
              (Add (toTime (at_ i)) (neg interval)) (j :: js) =
  if Nat.eqb i j then
    checkOthers targetTimes parsedTimes intervalHours interval i
                (Add (toTime (at_ i)) (neg interval)) js
  else if test i j then
    Some (mkConflictError
            (nth i targetTimes EmptyString) (nth j targetTimes EmptyString)
            (formatTime (Add (toTime (at_ i)) (neg interval)))
            (formatTime (Add (toTime (at_ j)) (neg interval)))
            (formatTime (Add (toTime (at_ j)) (neg interval)))
            (formatTime (Add (Add (toTime (at_ j)) (neg interval)) interval))
            intervalHours)
  else
    checkOthers targetTimes parsedTimes intervalHours interval i
                (Add (toTime (at_ i)) (neg interval)) js.
Proof.
  cbn [checkOthers]. unfold test, Spec.pairConflicts, at_, interval.
  cbv zeta. reflexivity.
Qed.

Lemma checkOthers_None i js :
  checkOthers targetTimes parsedTimes intervalHours interval i
              (Add (toTime (at_ i)) (neg interval)) js = None
  <-> forall j, In j js -> j <> i -> test i j = false.
Proof.
  induction js as [|j js IH].
  - split; [intros _ j []|reflexivity].
  - rewrite checkOthers_step.
    destruct (Nat.eqb i j) eqn:Eij.
    + apply Nat.eqb_eq in Eij. subst j. rewrite IH.
      split; intros H j Hj Hne; [|now apply H; [right|]].
      destruct Hj as [<-|Hj]; [congruence|now apply H].
    + apply Nat.eqb_neq in Eij.
      destruct (test i j) eqn:E.
      * split; [discriminate|]. intros H.
        rewrite H in E; [discriminate|now left|congruence].
      * rewrite IH. split; intros H k Hk Hne; [|now apply H; [right|]].
        destruct Hk as [<-|Hk]; [assumption|now apply H].
Qed.

Lemma checkAll_None is_ :
  checkAll targetTimes parsedTimes intervalHours interval is_ = None
  <-> forall i j, In i is_ -> (j < List.length parsedTimes)%nat -> j <> i ->
        test i j = false.
Proof.
  induction is_ as [|i is_ IH]; cbn [checkAll].
  - split; [intros _ i j []|reflexivity].
  - fold interval. fold (at_ i).
    destruct (checkOthers _ _ _ _ i _ _) as [e|] eqn:E.
    + split; [discriminate|]. intros H.
      assert (E' : checkOthers targetTimes parsedTimes intervalHours
                     interval i (Add (toTime (at_ i)) (neg interval))
                     (seq 0 (List.length parsedTimes)) = None).
      { apply checkOthers_None. intros j Hj Hne.
        apply H; [now left| |assumption].
        apply in_seq in Hj. lia. }
      congruence.
    + rewrite IH.
      pose proof (proj1 (checkOthers_None i _) E) as E'. clear E.
      rename E' into E.
      split; intros H.
      * intros k j [<-|Hk] Hj Hne; [|now apply H].
        apply E; [apply in_seq; lia|assumption].
      * intros k j Hk. apply H. now right.
Qed.
End LoopFacts.

(** Validation succeeds exactly when the test is false at every ordered
    pair of distinct positions of the given list. *)
Lemma validate_None targetTimes intervalHours :
  validateTargetTimesConflict targetTimes intervalHours = None
  <-> Spec.AtDistinct (fun a b => Spec.pairConflicts intervalHours
                               (parsedOf a) (parsedOf b) = false)
                 targetTimes.
Proof.
  unfold validateTargetTimesConflict.
  fold parsedOf.
  set (P := GoSort.Slice lessTimeOfDay (map parsedOf targetTimes)).
  rewrite checkAll_None.
  rewrite <- (AtDistinct_map parsedOf
               (fun a b => Spec.pairConflicts intervalHours a b = false)).
  rewrite <- (AtDistinct_perm _ _ _ (Slice_perm lessTimeOfDay _)).
  fold P. unfold Spec.AtDistinct. split.
  - intros H i j a b Hij Hi Hj.
    assert (Li : (i < List.length P)%nat)
      by (apply nth_error_Some; congruence).
    assert (Lj : (j < List.length P)%nat)
      by (apply nth_error_Some; congruence).
    rewrite <- (nth_error_nth _ _ zeroTimeOfDay Hi).
    rewrite <- (nth_error_nth _ _ zeroTimeOfDay Hj).
    apply H; [apply in_seq; lia|assumption|congruence].
  - intros H i j Hi Lj Hne. apply in_seq in Hi.
    apply (H i j); [congruence| |];
      apply nth_error_nth'; lia.
Qed.

Lemma todOf_parsedOf t : Spec.todOf (parsedOf t) = Spec.todSeconds t.
Proof.
  unfold Spec.todOf, parsedOf, Spec.todSeconds.
  now destruct (parseTime t).
Qed.

Lemma validate_NoConflict targetTimes intervalHours :
  Spec.hoursFit intervalHours ->
  validateTargetTimesConflict targetTimes intervalHours = None
  <-> Spec.NoConflict Spec.inWindow targetTimes intervalHours.
Proof.
  intros Hh. rewrite validate_None.
  unfold Spec.AtDistinct, Spec.NoConflict, Spec.quotaEndTod, Spec.triggerTod.
  split; intros H i j a b Hij Hi Hj; specialize (H i j a b Hij Hi Hj);
    rewrite pairConflicts_tod, !todOf_parsedOf in *; assumption.
Qed.
End Validator.

(** ** Claims about the validator *)

Section ValidatorClaims.
Import GoInt GoTime GoFmt Config.
Local Open Scope string_scope.
Local Open Scope Z_scope.

Lemma pairConflicts_whole_day h a b :
  Spec.hoursFit h -> h mod 24 = 0 -> Spec.pairConflicts h a b = true.
Proof.
  intros Hh H24. rewrite pairConflicts_tod by assumption.
  replace (((Spec.todOf b - h * 3600) mod 86400 + h * 3600) mod 86400)
    with ((Spec.todOf b - h * 3600) mod 86400) by zdiv.
  apply inWindow_degenerate.
Qed.

(** C3, as stated, fails where start and end coincide: the code answers
    true at 12:00 for the range from 09:00 to 09:00, ordinary containment
    answers false. *)
Lemma isTimeInRange_not_inInterval :
  let t := Date 2000 1 1 12 0 0 0 UTC in
  let start := Date 2000 1 1 9 0 0 0 UTC in
  let end_ := Date 2000 1 1 9 0 0 0 UTC in
  Spec.secOfDay start <= Spec.secOfDay end_ /\
  isTimeInRange t start end_ = true /\
  Spec.inInterval (Spec.secOfDay t) (Spec.secOfDay start)
                  (Spec.secOfDay end_) = false /\
  isTimeInRange t start end_ <>
  Spec.inInterval (Spec.secOfDay t) (Spec.secOfDay start) (Spec.secOfDay end_).
Proof.
  vm_compute. repeat split; try reflexivity; discriminate.
Qed.

(** C3, amended: [isTimeInRange] is ordinary containment in [[start, end)]
    when start < end, and (t >= start or t < end) when start >= end, on
    seconds since midnight; so it is true for every t when start = end.
    23:30 lies in the range from 22:00 to 02:00 and 12:00 does not. *)
Theorem isTimeInRange_wraparound :
  (forall t start end_ : Time,
      isTimeInRange t start end_ =
      let ts := Spec.secOfDay t in
      let ss := Spec.secOfDay start in
      let es := Spec.secOfDay end_ in
      if ss <? es then (ss <=? ts) && (ts <? es)
      else (ss <=? ts) || (ts <? es)) /\
  isTimeInRange (Date 2000 1 1 23 30 0 0 UTC) (Date 2000 1 1 22 0 0 0 UTC)
                (Date 2000 1 1 2 0 0 0 UTC) = true /\
  isTimeInRange (Date 2000 1 1 12 0 0 0 UTC) (Date 2000 1 1 22 0 0 0 UTC)
                (Date 2000 1 1 2 0 0 0 UTC) = false.
Proof.
  split; [|split; vm_compute; reflexivity].
  intros t start end_. apply isTimeInRange_inWindow.
Qed.

(** C10: when start and end have the same time of day the test is true for
    every t; so when the interval is a multiple of 24 hours the test is
    true at every pair of distinct positions, and a list of two or more
    target times is rejected.  The target times are well-formed, as the
    configuration requires before this check, and the interval is one
    whose duration fits 64 bits. *)
Theorem degenerate_window_rejects
    (targetTimes : list string) (intervalHours : Z)
    (Hwf : Forall Spec.wellFormed targetTimes)
    (Hfit : Spec.hoursFit intervalHours)
    (H24 : intervalHours mod 24 = 0) :
  (forall t start end_ : Time,
      Spec.secOfDay start = Spec.secOfDay end_ ->
      isTimeInRange t start end_ = true) /\
  (forall (i j : nat) (a b : string),
      i <> j ->
      nth_error targetTimes i = Some a ->
      nth_error targetTimes j = Some b ->
      Spec.pairConflicts intervalHours (parsedOf a) (parsedOf b) = true) /\
  ((2 <= List.length targetTimes)%nat ->
   exists e, validateTargetTimesConflict targetTimes intervalHours = Some e).
Proof.
  split; [|split].
  - intros t start end_ E. rewrite isTimeInRange_inWindow, E.
    apply inWindow_degenerate.
  - intros. now apply pairConflicts_whole_day.
  - intros Hlen.
    destruct (validateTargetTimesConflict targetTimes intervalHours)
      as [e|] eqn:E; [now exists e|].
    apply validate_None in E.
    destruct targetTimes as [|a [|b l]]; cbn in Hlen; try lia.
    specialize (E 0%nat 1%nat a b ltac:(discriminate) eq_refl eq_refl).
    cbv beta in E.
    rewrite pairConflicts_whole_day in E by assumption. discriminate.
Qed.

Lemma degenerate_window_rejects_witness :
  exists e, validateTargetTimesConflict ["09:00"; "14:00"] 24 = Some e.
Proof.
  apply (degenerate_window_rejects ["09:00"; "14:00"] 24).
  - repeat constructor; vm_compute; reflexivity.
  - unfold Spec.hoursFit. lia.
  - reflexivity.
  - cbn. lia.
Defined.

(** C1, as stated, fails when the interval is a multiple of 24 hours:
    with 24 hours, 09:00 and 14:00 are rejected, although neither trigger
    lies in the other's window read as ordinary containment (start = end
    gives the empty range). *)
Lemma validate_not_iff_inInterval :
  Forall Spec.wellFormed ["09:00"; "14:00"] /\
  ~ (validateTargetTimesConflict ["09:00"; "14:00"] 24 = None
     <-> Spec.NoConflict Spec.inInterval ["09:00"; "14:00"] 24).
Proof.
  split; [repeat constructor; vm_compute; reflexivity|].
  intros [_ H].
  assert (Hn : Spec.NoConflict Spec.inInterval ["09:00"; "14:00"] 24).
  { assert (Hnil : forall (k : nat) (x : string),
               nth_error (@nil string) k = Some x -> False)
      by (intros [|k] x Hk; discriminate Hk).
    intros i j a b _ Hi Hj.
    destruct i as [|[|i]]; cbn [nth_error] in Hi;
      try (exfalso; eapply Hnil; eassumption);
      destruct j as [|[|j]]; cbn [nth_error] in Hj;
      try (exfalso; eapply Hnil; eassumption);
      injection Hi as <-; injection Hj as <-; vm_compute; reflexivity. }
  specialize (H Hn). revert H. vm_compute. intros H. discriminate H.
Qed.

(** With 25 hours the window of a trigger is taken to be one hour long
    (its end is reduced modulo 24 hours), and 09:00 with 14:00 is
    accepted. *)
Lemma validate_accepts_25_hours :
  validateTargetTimesConflict ["09:00"; "14:00"] 25 = None.
Proof. vm_compute. reflexivity. Qed.

(** C1, amended: validation succeeds exactly when, for every ordered pair
    of distinct positions, the trigger of the first (target minus the
    interval, modulo 24 hours) lies outside the window of the second,
    the window being the whole day when start and end coincide; with 5
    hours, 14:00 and 18:00 are rejected, 18:00's trigger 13:00 lying in
    the window from 09:00 to 14:00.  The interval is one whose duration
    fits 64 bits. *)
Theorem validate_iff_no_conflict
    (targetTimes : list string) (intervalHours : Z)
    (Hwf : Forall Spec.wellFormed targetTimes)
    (Hfit : Spec.hoursFit intervalHours) :
  (validateTargetTimesConflict targetTimes intervalHours = None
   <-> Spec.NoConflict Spec.inWindow targetTimes intervalHours) /\
  (validateTargetTimesConflict ["14:00"; "18:00"] 5 <> None /\
   Spec.triggerTod 5 "18:00" = 13 * 3600 /\
   Spec.triggerTod 5 "14:00" = 9 * 3600 /\
   Spec.quotaEndTod 5 "14:00" = 14 * 3600 /\
   Spec.inWindow (13 * 3600) (9 * 3600) (14 * 3600) = true).
Proof.
  split; [now apply validate_NoConflict|].
  split; [vm_compute; intros H; discriminate H|].
  repeat split; vm_compute; reflexivity.
Qed.

Lemma validate_iff_no_conflict_witness :
  validateTargetTimesConflict ["09:00"; "14:00"; "19:00"] 5 = None
  <-> Spec.NoConflict Spec.inWindow ["09:00"; "14:00"; "19:00"] 5.
Proof.
  apply (validate_iff_no_conflict ["09:00"; "14:00"; "19:00"] 5).
  - repeat constructor; vm_compute; reflexivity.
  - unfold Spec.hoursFit. lia.
Defined.

(** C6 at a list that is not sorted: 11:00 (trigger 06:00) falls in the
    window of 09:00 (from 04:00 to 09:00), and the error names 09:00 and
    19:00, with 06:00 given as the trigger of 09:00 and 04:00 as the
    trigger of 19:00. *)
Theorem conflict_error_names_wrong_pair :
  let targetTimes := ["19:00"; "09:00"; "11:00"] in
  Forall Spec.wellFormed targetTimes /\
  validateTargetTimesConflict targetTimes 5 =
    Some (mkConflictError "09:00" "19:00" "06:00" "04:00" "04:00" "09:00" 5) /\
  Spec.pairConflicts 5 (parsedOf "11:00") (parsedOf "09:00") = true /\
  Spec.pairConflicts 5 (parsedOf "09:00") (parsedOf "19:00") = false /\
  formatTime (Add (toTime (parsedOf "09:00")) (neg (durationOf 5 Hour)))
    = "04:00" /\
  formatTime (Add (toTime (parsedOf "19:00")) (neg (durationOf 5 Hour)))
    = "14:00" /\
  formatTime (Add (toTime (parsedOf "11:00")) (neg (durationOf 5 Hour)))
    = "06:00".
Proof.
  cbv zeta. split; [repeat constructor; vm_compute; reflexivity|].
  repeat split; vm_compute; reflexivity.
Qed.
End ValidatorClaims.

(** ** The trigger calculator *)

Section Calculator.
Import GoInt GoTime GoFmt Config Scheduler.
Local Open Scope string_scope.
Local Open Scope list_scope.
Local Open Scope Z_scope.

Lemma wellFormed_scans t :
  Spec.wellFormed t ->
  exists hour min,
    Sscanf_d_colon_d t = (hour, min, true) /\
    0 <= hour <= 23 /\ 0 <= min <= 59.
Proof.
  unfold Spec.wellFormed, isValidTimeFormat.
  destruct (negb _); [discriminate|].
  destruct (Sscanf_d_colon_d t) as [[hour min] ok].
  destruct ok; cbn [negb]; [|discriminate].
  intros H. exists hour, min. split; [reflexivity|]. lia.
Qed.

(** A well-formed target contributes the trigger of the specification. *)
Lemma triggerOf_wellFormed date h b t :
  Spec.wellFormed t -> Spec.hoursFit h -> Spec.secondsFit b ->
  triggerOf date (durationOf h Hour) (durationOf b Second) t =
  [Spec.triggerFor date h b t].
Proof.
  intros Hwf Hh Hb.
  destruct (wellFormed_scans t Hwf) as (hour & min & E & _ & _).
  unfold triggerOf, Spec.triggerFor, Spec.triggerInstant, parseTime.
  rewrite E. cbn [negb].
  rewrite Date_of_day, hours_duration, seconds_duration, neg_hours
    by assumption.
  unfold Add, Spec.atTimeOfDay; cbn [unixNano loc].
  do 3 f_equal. lia.
Qed.

Lemma triggers_wellFormed date h b ts :
  Forall Spec.wellFormed ts -> Spec.hoursFit h -> Spec.secondsFit b ->
  flat_map (triggerOf date (durationOf h Hour) (durationOf b Second)) ts =
  map (Spec.triggerFor date h b) ts.
Proof.
  intros Hwf Hh Hb.
  induction Hwf as [|t ts Ht _ IH]; cbn [flat_map map]; [reflexivity|].
  rewrite triggerOf_wellFormed, IH by assumption. reflexivity.
Qed.

Lemma lessTrigger_sorted l :
  StronglySorted Spec.notLater (GoSort.Slice lessTrigger l).
Proof.
  apply Slice_sorted; unfold Spec.notLater, lessTrigger, Before.
  - intros x y z. lia.
  - intros x y H. apply Z.ltb_lt in H. lia.
  - intros x y H. apply Z.ltb_ge in H. lia.
Qed.

(** A list already in order is left as it is. *)
Lemma insert_last {A} (less : A -> A -> bool) x l :
  Forall (fun y => less x y = false) l -> GoSort.insert less x l = l ++ [x].
Proof.
  induction 1 as [|y l Hy _ IH]; cbn; [reflexivity|].
  now rewrite Hy, IH.
Qed.

Lemma fold_insert_ordered {A} (less : A -> A -> bool) l acc :
  StronglySorted (fun a b => less b a = false) (acc ++ l) ->
  fold_left (fun acc x => GoSort.insert less x acc) l acc = acc ++ l.
Proof.
  revert acc. induction l as [|x l IH]; intros acc H; cbn.
  - now rewrite app_nil_r.
  - rewrite insert_last.
    + rewrite IH; rewrite <- app_assoc; [reflexivity|exact H].
    + clear IH. induction acc as [|a acc IHacc]; [constructor|].
      cbn in H. inversion H as [|? ? Hs Ha]; subst.
      constructor; [|auto].
      rewrite Forall_forall in Ha. apply Ha, in_elt.
Qed.

Lemma Slice_ordered {A} (less : A -> A -> bool) l :
  StronglySorted (fun a b => less b a = false) l -> GoSort.Slice less l = l.
Proof. intros H. apply (fold_insert_ordered less l []). exact H. Qed.

Lemma example_triggers date :
  CalculateDailyTriggers date Spec.exampleTargets 5 60 =
  [Spec.triggerOn (dayNumber date) (loc date) 4 1 "09:00";
   Spec.triggerOn (dayNumber date) (loc date) 9 1 "14:00";
   Spec.triggerOn (dayNumber date) (loc date) 14 1 "19:00"].
Proof.
  unfold CalculateDailyTriggers.
  rewrite triggers_wellFormed;
    [ | repeat constructor; vm_compute; reflexivity
      | unfold Spec.hoursFit; lia | unfold Spec.secondsFit; lia ].
  assert (E : map (Spec.triggerFor date 5 60) Spec.exampleTargets =
              [Spec.triggerOn (dayNumber date) (loc date) 4 1 "09:00";
               Spec.triggerOn (dayNumber date) (loc date) 9 1 "14:00";
               Spec.triggerOn (dayNumber date) (loc date) 14 1 "19:00"]).
  { unfold Spec.exampleTargets, Spec.triggerFor, Spec.triggerInstant.
    cbn [map].
    replace (parseTime "09:00") with (9, 0) by (vm_compute; reflexivity).
    replace (parseTime "14:00") with (14, 0) by (vm_compute; reflexivity).
    replace (parseTime "19:00") with (19, 0) by (vm_compute; reflexivity).
    unfold Spec.triggerOn, Spec.atTimeOfDay, Second.
    repeat (apply f_equal2; [f_equal; f_equal; lia|]). reflexivity. }
  rewrite E. apply Slice_ordered.
  unfold lessTrigger, Before, Spec.triggerOn, Second.
  cbn [TriggerTime unixNano].
  repeat (apply SSorted_cons;
          [|repeat (apply Forall_cons;
                    [cbn [TriggerTime unixNano]; apply Z.ltb_ge; lia|]);
            apply Forall_nil]).
  apply SSorted_nil.
Qed.
End Calculator.

(** ** Claims about the trigger calculator *)

Section CalculatorClaims.
Import GoInt GoTime GoFmt Config Scheduler.
Local Open Scope string_scope.
Local Open Scope list_scope.
Local Open Scope Z_scope.

Lemma triggerOn_Date date hour min target :
  Spec.triggerOn (dayNumber date) (loc date) hour min target =
  mkDailyTrigger target
    (Date (Year date) (Month date) (Day date) hour min 0 0 (loc date)).
Proof.
  rewrite Date_of_day. unfold Spec.triggerOn. do 2 f_equal. lia.
Qed.

(** C5: the triggers of a date are, for each target, the instant
    (date at target time) - intervalHours + bufferSeconds, computed on
    absolute instants, in ascending order; for 5 hours, 60 seconds and
    09:00, 14:00, 19:00 they are 04:01, 09:01 and 14:01 of that date, and
    the trigger of 03:00 falls at 22:01 of the day before. *)
Theorem CalculateDailyTriggers_spec
    (date : Time) (targetTimes : list string)
    (intervalHours bufferSeconds : Z)
    (Hwf : Forall Spec.wellFormed targetTimes)
    (Hh : Spec.hoursFit intervalHours)
    (Hb : Spec.secondsFit bufferSeconds) :
  let triggers :=
    CalculateDailyTriggers date targetTimes intervalHours bufferSeconds in
  Permutation triggers
    (map (Spec.triggerFor date intervalHours bufferSeconds) targetTimes) /\
  StronglySorted Spec.notLater triggers /\
  (forall target hour min,
      parseTime target = (hour, min) ->
      Spec.triggerInstant date intervalHours bufferSeconds target =
      Add (Add (Date (Year date) (Month date) (Day date) hour min 0 0
                     (loc date))
               (- (intervalHours * Hour)))
          (bufferSeconds * Second)) /\
  CalculateDailyTriggers date ["09:00"; "14:00"; "19:00"] 5 60 =
    [mkDailyTrigger "09:00"
       (Date (Year date) (Month date) (Day date) 4 1 0 0 (loc date));
     mkDailyTrigger "14:00"
       (Date (Year date) (Month date) (Day date) 9 1 0 0 (loc date));
     mkDailyTrigger "19:00"
       (Date (Year date) (Month date) (Day date) 14 1 0 0 (loc date))] /\
  CalculateDailyTriggers (Date 2025 2 19 0 0 0 0 UTC) ["03:00"] 5 60 =
    [mkDailyTrigger "03:00" (Date 2025 2 18 22 1 0 0 UTC)].
Proof.
  cbv zeta. split; [|split; [|split; [|split]]].
  - unfold CalculateDailyTriggers.
    rewrite triggers_wellFormed by assumption. apply Slice_perm.
  - apply lessTrigger_sorted.
  - intros target hour min E.
    unfold Spec.triggerInstant. rewrite E, Date_of_day.
    unfold Spec.atTimeOfDay, Add, Hour, Minute, Second; cbn [unixNano loc].
    f_equal. lia.
  - rewrite <- !triggerOn_Date. apply example_triggers.
  - vm_compute. reflexivity.
Qed.

Lemma CalculateDailyTriggers_spec_witness :
  StronglySorted Spec.notLater
    (CalculateDailyTriggers (Date 2025 2 19 0 0 0 0 UTC)
                            ["19:00"; "09:00"; "14:00"] 5 60).
Proof.
  apply (CalculateDailyTriggers_spec (Date 2025 2 19 0 0 0 0 UTC)
           ["19:00"; "09:00"; "14:00"] 5 60).
  - repeat constructor; vm_compute; reflexivity.
  - unfold Spec.hoursFit. lia.
  - unfold Spec.secondsFit. lia.
Defined.

Lemma Truncate_day now :
  Truncate now (24 * Hour) =
  mkTime (unixNano now
          - (unixNano now + 62135596800000000000) mod 86400000000000)
         (loc now).
Proof.
  unfold Truncate.
  change (24 * Hour) with 86400000000000.
  change (unixToInternal * Second) with 62135596800000000000.
  change (86400000000000 <=? 0) with false. cbv iota.
  reflexivity.
Qed.

(** The day [NextTrigger] calls today: the calendar day, in the Location
    of [now], of the last midnight UTC. *)
Lemma dayNumber_today now :
  dayNumber (Truncate now (24 * Hour)) =
  (86400 * (unixNano now / 86400000000000) + loc now) / 86400.
Proof.
  rewrite Truncate_day.
  unfold dayNumber, wallSec, unixSec; cbn [unixNano loc].
  change Second with 1000000000. zdiv.
Qed.

Lemma dayNumber_tomorrow now :
  dayNumber (Add (Truncate now (24 * Hour)) (24 * Hour)) =
  (86400 * (unixNano now / 86400000000000) + loc now) / 86400 + 1.
Proof.
  rewrite Truncate_day.
  unfold dayNumber, wallSec, unixSec, Add; cbn [unixNano loc].
  change (24 * Hour) with 86400000000000.
  change Second with 1000000000. zdiv.
Qed.

(** In UTC, today is the start of the day of [now]. *)
Lemma today_UTC now :
  loc now = UTC -> Truncate now (24 * Hour) = Spec.startOfDay now.
Proof.
  intros E. unfold Spec.startOfDay. rewrite Date_of_day, Truncate_day.
  unfold dayNumber, wallSec, unixSec.
  rewrite E. unfold UTC. change Second with 1000000000.
  f_equal. zdiv.
Qed.

(** In UTC the search of [NextTrigger] is the search of section 4.3. *)
Lemma NextTrigger_UTC now targetTimes intervalHours bufferSeconds t :
  loc now = UTC ->
  Spec.nextTrigger now targetTimes intervalHours bufferSeconds = Some t ->
  fst (NextTrigger now targetTimes intervalHours bufferSeconds) = t.
Proof.
  intros E. unfold Spec.nextTrigger, NextTrigger.
  rewrite <- (today_UTC now E).
  destruct (find _ _) as [t'|].
  - intros [= <-]. reflexivity.
  - destruct (CalculateDailyTriggers _ _ _ _) as [|t' l]; cbn [hd_error].
    + discriminate.
    + intros [= <-]. reflexivity.
Qed.
End CalculatorClaims.

Section NextTriggerClaims.
Import GoInt GoTime GoFmt Config Scheduler.
Local Open Scope string_scope.
Local Open Scope list_scope.
Local Open Scope Z_scope.

Lemma Date_unix y m d hour min l days :
  days_from_civil (y + (m - 1) / 12) ((m - 1) mod 12 + 1) d = days ->
  Date y m d hour min 0 0 l =
  mkTime ((days * 86400 + hour * 3600 + min * 60 - l) * Second) l.
Proof. intros E. unfold Date. rewrite E. f_equal. lia. Qed.

(** From 14:01 on 2025-02-19 until 04:01 on 2025-02-20, in a zone between
    UTC and UTC+14, the next trigger of the example is 04:01 on
    2025-02-20, for 09:00. *)
Lemma NextTrigger_example_window (l : Location) (now : Time) :
  0 <= l <= 14 * 3600 ->
  loc now = l ->
  (20138 * 86400 + 14 * 3600 + 60 - l) * Second <= unixNano now
    < (20139 * 86400 + 4 * 3600 + 60 - l) * Second ->
  fst (NextTrigger now Spec.exampleTargets 5 60)
  = Spec.triggerOn 20139 l 4 1 "09:00".
Proof.
  intros Hl El Hn. unfold NextTrigger.
  rewrite !example_triggers, dayNumber_today, dayNumber_tomorrow.
  rewrite Truncate_day. cbn [loc Add]. rewrite El.
  set (d := (86400 * (unixNano now / 86400000000000) + l) / 86400).
  change Second with 1000000000 in Hn.
  assert (Hd : d = 20138 \/ d = 20139) by (subst d; zdiv).
  clearbody d.
  unfold Spec.triggerOn, After. cbn [find TriggerTime unixNano].
  change Second with 1000000000.
  destruct Hd as [-> | ->].
  - repeat match goal with
           | |- context [?a <? ?b] =>
               destruct (Z.ltb_spec a b); [exfalso; lia|]
           end.
    reflexivity.
  - destruct (Z.ltb_spec (unixNano now)
                ((20139 * 86400 + 4 * 3600 + 1 * 60 - l) * 1000000000));
      [reflexivity | exfalso; lia].
Qed.

(** C4, as stated, fails: at 16:00 on 2025-02-19 the trigger returned is
    not one for 19:00 at 19:01. *)
Lemma NextTrigger_example_not_1901 :
  fst (NextTrigger (Date 2025 2 19 16 0 0 0 UTC)
                   ["09:00"; "14:00"; "19:00"] 5 60)
  <> mkDailyTrigger "19:00" (Date 2025 2 19 19 1 0 0 UTC).
Proof. vm_compute. intros H. discriminate H. Qed.

(** C4, amended: in a zone between UTC and UTC+14, with targets 09:00,
    14:00, 19:00, 5 hours and 60 seconds, [NextTrigger] at 16:00 on
    2025-02-19 returns the trigger for 09:00 at 04:01 on 2025-02-20, and
    so it does at every instant after 19:01 on 2025-02-19 and before
    04:01 on 2025-02-20. *)
Theorem NextTrigger_example (l : Location) (Hl : 0 <= l <= 14 * 3600) :
  fst (NextTrigger (Date 2025 2 19 16 0 0 0 l)
                   ["09:00"; "14:00"; "19:00"] 5 60)
  = mkDailyTrigger "09:00" (Date 2025 2 20 4 1 0 0 l) /\
  forall now : Time,
    loc now = l ->
    After now (Date 2025 2 19 19 1 0 0 l) = true ->
    Before now (Date 2025 2 20 4 1 0 0 l) = true ->
    fst (NextTrigger now ["09:00"; "14:00"; "19:00"] 5 60)
    = mkDailyTrigger "09:00" (Date 2025 2 20 4 1 0 0 l).
Proof.
  change ["09:00"; "14:00"; "19:00"] with Spec.exampleTargets.
  rewrite (Date_unix 2025 2 20 4 1 l 20139) by reflexivity.
  rewrite (Date_unix 2025 2 19 16 0 l 20138) by reflexivity.
  rewrite (Date_unix 2025 2 19 19 1 l 20138) by reflexivity.
  fold (Spec.triggerOn 20139 l 4 1 "09:00").
  split.
  - apply NextTrigger_example_window; [assumption|reflexivity|].
    cbn [unixNano]. change Second with 1000000000. lia.
  - intros now El Ha Hb. unfold After, Before in *. cbn [unixNano] in *.
    apply Z.ltb_lt in Ha, Hb.
    apply NextTrigger_example_window; [assumption|assumption|].
    change Second with 1000000000 in *. lia.
Qed.

Lemma NextTrigger_example_witness :
  fst (NextTrigger (Date 2025 2 19 16 0 0 0 UTC)
                   ["09:00"; "14:00"; "19:00"] 5 60)
  = mkDailyTrigger "09:00" (Date 2025 2 20 4 1 0 0 UTC).
Proof.
  destruct (NextTrigger_example UTC) as [H _]; [unfold UTC; lia|exact H].
Defined.

(** C2 at 05:00 on 2025-02-19 in a zone at UTC+8, target 09:00, 5 hours,
    60 seconds: today is taken to be 2025-02-18 (the day of the last
    midnight UTC, 08:00 local time), and the trigger returned, 04:01 on
    2025-02-19, is not after now; with today the start of the local day,
    no trigger of today is after now and the earliest of tomorrow's is
    04:01 on 2025-02-20. *)
Theorem NextTrigger_today_not_local :
  let l := 8 * 3600 in
  let now := Date 2025 2 19 5 0 0 0 l in
  Truncate now (24 * Hour) = Date 2025 2 18 8 0 0 0 l /\
  Spec.startOfDay now = Date 2025 2 19 0 0 0 0 l /\
  fst (NextTrigger now ["09:00"] 5 60)
    = mkDailyTrigger "09:00" (Date 2025 2 19 4 1 0 0 l) /\
  After (Date 2025 2 19 4 1 0 0 l) now = false /\
  Spec.nextTrigger now ["09:00"] 5 60
    = Some (mkDailyTrigger "09:00" (Date 2025 2 20 4 1 0 0 l)).
Proof. cbv zeta. repeat split; vm_compute; reflexivity. Qed.

(** C9 at 23:00 UTC on 2025-02-19, target 03:00, 5 hours, 60 seconds (a
    configuration the validator accepts): the trigger returned is 22:01
    on 2025-02-19, an hour before now. *)
Theorem NextTrigger_returns_past_trigger :
  let now := Date 2025 2 19 23 0 0 0 UTC in
  Forall Spec.wellFormed ["03:00"] /\
  validateTargetTimesConflict ["03:00"] 5 = None /\
  fst (NextTrigger now ["03:00"] 5 60)
    = mkDailyTrigger "03:00" (Date 2025 2 19 22 1 0 0 UTC) /\
  After (TriggerTime (fst (NextTrigger now ["03:00"] 5 60))) now = false.
Proof.
  cbv zeta. split; [repeat constructor; vm_compute; reflexivity|].
  repeat split; vm_compute; reflexivity.
Qed.
End NextTriggerClaims.

(** ** The scheduling loop *)

Section LoopClaims.
Import GoInt GoTime Scheduler Loop.
Import ITree.ITree ITree.ITreeFacts ITree.Events.State ITree.Events.StateFacts.
Import ITreeNotations.
Local Open Scope itree_scope.

Variable env : Env.
Variable cfg : SchedulerConfig.

(** A request followed by the rest of the program. *)
Lemma run_request {X R : Type} (e : schedE X) (k : X -> itree schedE R)
    (r : Run) :
  interp_state (inEnv env) (x <- ITree.trigger e ;; k x) r ≈
  interp_state (inEnv env) (k (snd (respond env e r))) (fst (respond env e r)).
Proof.
  rewrite interp_state_bind, interp_state_trigger.
  unfold inEnv at 1. rewrite bind_ret_l. reflexivity.
Qed.

Lemma run_last_request {X : Type} (e : schedE X) (r : Run) :
  interp_state (inEnv env) (ITree.trigger e) r ≈ Ret (respond env e r).
Proof. rewrite interp_state_trigger. reflexivity. Qed.

Ltac run_event :=
  rewrite ?bind_bind, run_request; cbn [respond fst snd].

(** One pass of the loop: a returned value ends it, a new trigger starts
    the next pass. *)
Lemma runLoop_pass (nextTrigger : DailyTrigger) (r : Run) :
  runLoop env cfg nextTrigger r ≈
  (x <- interp_state (inEnv env) (iteration cfg nextTrigger) r ;;
   match snd x with
   | inl nextTrigger' => runLoop env cfg nextTrigger' (fst x)
   | inr e => Ret (fst x, e)
   end).
Proof.
  unfold runLoop, mainLoop. rewrite unfold_iter, interp_state_bind.
  apply eqit_bind; [reflexivity|]. intros [r' [tr'|e]]; cbn [fst snd].
  - rewrite interp_state_tau, tau_eutt. reflexivity.
  - rewrite interp_state_ret. reflexivity.
Qed.

Lemma iteration_cancelled_waiting (nextTrigger : DailyTrigger) (r : Run) :
  doneAtPoll env (nPoll r) = false ->
  After (TriggerTime nextTrigger) (clock env (nNow r)) = true ->
  timerFires env (nWait r) = false ->
  interp_state (inEnv env) (iteration cfg nextTrigger) r ≈
  Ret (mkRun (S (nNow r)) (S (nPoll r)) (S (nWait r)) (nTrigger r)
             (logged r ++
              [LogWaiting (Round (Sub (TriggerTime nextTrigger)
                                      (clock env (nNow r))) Second)]),
       inr (ctxErr env)).
Proof.
  intros Hpoll Hfuture Hcancel. unfold iteration.
  run_event. rewrite Hpoll.
  run_event. cbn [nNow]. rewrite Hfuture.
  run_event. run_event. cbn [nWait]. rewrite Hcancel.
  run_event. rewrite interp_state_ret. reflexivity.
Qed.

(** C8: when the trigger lies in the future and the wait ends with the
    cancellation, the loop returns ctx.Err() at once: the action has not
    been invoked, and nothing is logged after the waiting line. *)
Theorem cancel_during_wait_returns
    (nextTrigger : DailyTrigger) (r : Run)
    (Hpoll : doneAtPoll env (nPoll r) = false)
    (Hfuture : After (TriggerTime nextTrigger) (clock env (nNow r)) = true)
    (Hcancel : timerFires env (nWait r) = false) :
  exists r' : Run,
    runLoop env cfg nextTrigger r ≈ Ret (r', ctxErr env) /\
    nTrigger r' = nTrigger r /\
    logged r' =
      logged r ++
      [LogWaiting
         (Round (Sub (TriggerTime nextTrigger) (clock env (nNow r))) Second)].
Proof.
  eexists. split; [|split].
  - rewrite runLoop_pass, iteration_cancelled_waiting by assumption.
    rewrite bind_ret_l. cbn [fst snd]. reflexivity.
  - reflexivity.
  - reflexivity.
Qed.

Lemma iteration_fires (nextTrigger : DailyTrigger) (r : Run) :
  doneAtPoll env (nPoll r) = false ->
  (After (TriggerTime nextTrigger) (clock env (nNow r)) = true ->
   timerFires env (nWait r) = true) ->
  interp_state (inEnv env) (iteration cfg nextTrigger) r ≈
  Ret (afterFiring env cfg nextTrigger r
         match triggerResult env (nTrigger r) with
         | Some e => LogTriggerFailed e
         | None => LogTriggerCompleted
         end,
       inl (computeNext cfg (clock env (S (nNow r))))).
Proof.
  intros Hpoll Hwait. unfold iteration, afterFiring.
  run_event. rewrite Hpoll.
  run_event. cbn [nNow].
  destruct (After (TriggerTime nextTrigger) (clock env (nNow r))) eqn:Ea.
  - run_event. run_event. cbn [nWait]. rewrite Hwait by reflexivity.
    run_event. run_event. run_event. cbn [nTrigger].
    destruct (triggerResult env (nTrigger r)) as [e|];
      run_event; run_event; cbn [nNow]; run_event;
      rewrite interp_state_ret; cbn [logged];
      rewrite <- !app_assoc; reflexivity.
  - rewrite bind_ret_l.
    run_event. run_event. run_event. cbn [nTrigger].
    destruct (triggerResult env (nTrigger r)) as [e|];
      run_event; run_event; cbn [nNow]; run_event;
      rewrite interp_state_ret; cbn [logged];
      rewrite <- !app_assoc; reflexivity.
Qed.

Lemma iteration_done_at_poll (nextTrigger : DailyTrigger) (r : Run) :
  doneAtPoll env (nPoll r) = true ->
  interp_state (inEnv env) (iteration cfg nextTrigger) r ≈
  Ret (mkRun (nNow r) (S (nPoll r)) (nWait r) (nTrigger r) (logged r),
       inr (ctxErr env)).
Proof.
  intros Hpoll. unfold iteration.
  run_event. rewrite Hpoll.
  run_event. rewrite interp_state_ret. reflexivity.
Qed.

(** A pass of the loop ends, and what it returns is ctx.Err(). *)
Lemma iteration_outcome (nextTrigger : DailyTrigger) (r : Run) :
  exists (r' : Run) (x : DailyTrigger + error),
    interp_state (inEnv env) (iteration cfg nextTrigger) r ≈ Ret (r', x) /\
    forall e, x = inr e -> e = ctxErr env.
Proof.
  destruct (doneAtPoll env (nPoll r)) eqn:Hpoll.
  { do 2 eexists. split; [now apply iteration_done_at_poll|].
    now intros e [= <-]. }
  destruct (After (TriggerTime nextTrigger) (clock env (nNow r))) eqn:Ea.
  - destruct (timerFires env (nWait r)) eqn:Ew.
    + do 2 eexists. split; [now apply iteration_fires|]. discriminate.
    + do 2 eexists. split; [now apply iteration_cancelled_waiting|].
      now intros e [= <-].
  - do 2 eexists. split; [apply iteration_fires; [assumption|]|].
    + rewrite Ea. discriminate.
    + discriminate.
Qed.

(** Whatever the collaborators answer, a value returned by the loop is
    ctx.Err(). *)
Lemma runLoop_returns_ctxErr (nextTrigger : DailyTrigger) (r r' : Run)
    (v : error) :
  runLoop env cfg nextTrigger r ≈ Ret (r', v) -> v = ctxErr env.
Proof.
  intros Hret.
  assert (Hpost : eutt (fun x _ : Run * error => snd x = ctxErr env)
                       (runLoop env cfg nextTrigger r)
                       (runLoop env cfg nextTrigger r)).
  { unfold runLoop, mainLoop.
    rewrite (interp_state_iter'_eutt (inEnv env) (iteration cfg)
               (fun i => interp_state (inEnv env) (iteration cfg i))
               ltac:(intros; cbv beta; reflexivity) nextTrigger r).
    unfold Basics.iter, MonadIter_stateT0, Basics.iter, MonadIter_itree.
    apply (eutt_iter' eq); [|reflexivity].
    intros [r1 tr1] ? <-. cbn [fst snd].
    destruct (iteration_outcome tr1 r1) as (r2 & x & Hx & Hctx).
    unfold Monad.bind, Monad.ret, Monad_itree.
    rewrite Hx, bind_ret_l. cbn [fst snd].
    apply eqit_Ret. destruct x as [tr2|e]; constructor; [reflexivity|].
    cbn [snd]. now apply Hctx. }
  rewrite Hret in Hpost. apply eqit_inv_Ret in Hpost. exact Hpost.
Qed.

(** C7: when the action fails in a pass of the loop (no cancellation
    being observed before it), the pass does not return and does not hand
    the error on: it ends with the trigger for the next pass, which is
    [NextTrigger] at the clock read after the action.  In that pass the
    action has been invoked once, and the lines logged are the wait (if
    the trigger lay in the future), the triggering, the failure and the
    next trigger.  So the loop goes on as the loop started with that
    trigger, and whatever happens later, a value the loop returns is
    ctx.Err(), not the error of the action. *)
Theorem action_failure_contained
    (nextTrigger : DailyTrigger) (r : Run) (e : error)
    (Hpoll : doneAtPoll env (nPoll r) = false)
    (Hwait : After (TriggerTime nextTrigger) (clock env (nNow r)) = true ->
             timerFires env (nWait r) = true)
    (Hfail : triggerResult env (nTrigger r) = Some e) :
  let now := clock env (nNow r) in
  let waits := After (TriggerTime nextTrigger) now in
  let next :=
    fst (NextTrigger (clock env (S (nNow r))) (TargetTimes cfg)
                     (IntervalHours cfg) (SafetyBufferSeconds cfg)) in
  let r' :=
    mkRun (S (S (nNow r))) (S (nPoll r))
          (if waits then S (nWait r) else nWait r)
          (S (nTrigger r))
          (logged r ++
           (if waits
            then [LogWaiting (Round (Sub (TriggerTime nextTrigger) now)
                                    Second)]
            else []) ++
           [LogTriggering (platformName env) (TargetTime nextTrigger);
            LogTriggerFailed e;
            LogNextTrigger (TriggerTime next) (TargetTime next)]) in
  interp_state (inEnv env) (iteration cfg nextTrigger) r ≈
    Ret (r', inl next) /\
  runLoop env cfg nextTrigger r ≈ runLoop env cfg next r' /\
  (forall (r'' : Run) (v : error),
      runLoop env cfg nextTrigger r ≈ Ret (r'', v) -> v = ctxErr env).
Proof.
  cbv zeta.
  assert (Hpass :
    interp_state (inEnv env) (iteration cfg nextTrigger) r ≈
    Ret (mkRun (S (S (nNow r))) (S (nPoll r))
          (if After (TriggerTime nextTrigger) (clock env (nNow r))
           then S (nWait r) else nWait r)
          (S (nTrigger r))
          (logged r ++
           (if After (TriggerTime nextTrigger) (clock env (nNow r))
            then [LogWaiting (Round (Sub (TriggerTime nextTrigger)
                                         (clock env (nNow r))) Second)]
            else []) ++
           [LogTriggering (platformName env) (TargetTime nextTrigger);
            LogTriggerFailed e;
            LogNextTrigger
              (TriggerTime
                 (fst (NextTrigger (clock env (S (nNow r))) (TargetTimes cfg)
                         (IntervalHours cfg) (SafetyBufferSeconds cfg))))
              (TargetTime
                 (fst (NextTrigger (clock env (S (nNow r))) (TargetTimes cfg)
                         (IntervalHours cfg) (SafetyBufferSeconds cfg))))]),
         inl (fst (NextTrigger (clock env (S (nNow r))) (TargetTimes cfg)
                     (IntervalHours cfg) (SafetyBufferSeconds cfg))))).
  { rewrite iteration_fires by assumption. rewrite Hfail.
    unfold afterFiring, computeNext.
    destruct (After (TriggerTime nextTrigger) (clock env (nNow r)));
      cbn [app]; rewrite <- ?app_assoc; cbn [app]; reflexivity. }
  split; [exact Hpass|]. split.
  - rewrite runLoop_pass, Hpass. rewrite bind_ret_l. cbn [fst snd].
    reflexivity.
  - intros r'' v. apply runLoop_returns_ctxErr.
Qed.
End LoopClaims.

Section LoopWitnesses.
Import GoTime Scheduler Loop.
Import ITree.ITree ITree.ITreeFacts.

Lemma cancel_during_wait_returns_witness :
  exists r' : Run,
    eutt eq (runLoop cancelledEnv exampleCfg exampleTrigger freshRun)
            (Ret (r', ctxErr cancelledEnv)) /\
    nTrigger r' = nTrigger freshRun /\
    logged r' =
      logged freshRun ++
      [LogWaiting
         (Round (Sub (TriggerTime exampleTrigger)
                     (clock cancelledEnv (nNow freshRun))) Second)].
Proof.
  apply (cancel_during_wait_returns cancelledEnv exampleCfg exampleTrigger
                                    freshRun).
  - reflexivity.
  - vm_compute. reflexivity.
  - reflexivity.
Defined.

Lemma action_failure_contained_witness :
  eutt eq
    (State.interp_state (inEnv failingEnv)
       (iteration exampleCfg exampleTrigger) freshRun)
    (Ret (mkRun 2 1 1 1
            [LogWaiting (12 * Hour + Minute);
             LogTriggering "anthropic" "09:00";
             LogTriggerFailed (errorString "request failed after retries");
             LogNextTrigger (Date 2025 2 20 4 1 0 0 UTC) "09:00"],
          inl exampleTrigger)).
Proof.
  refine (proj1 (action_failure_contained failingEnv exampleCfg
                   exampleTrigger freshRun
                   (errorString "request failed after retries") _ _ _)).
  - reflexivity.
  - intros _. reflexivity.
  - reflexivity.
Defined.
End LoopWitnesses.

(* ===================================================================== *)
(** * Further properties of the code                                      *)
(* ===================================================================== *)

(** ** Formatting and parsing times of day *)

Section FormatParse.
Import GoInt GoTime GoFmt GoStrings Config Derived.
Local Open Scope string_scope.
Local Open Scope list_scope.
Local Open Scope Z_scope.

Lemma countUp_In n z : 0 <= z < Z.of_nat n -> In z (countUp n).
Proof.
  intros H. unfold countUp. apply in_map_iff. exists (Z.to_nat z).
  split; [lia|]. apply in_seq. lia.
Qed.

Lemma roundTrips_all :
  forallb (fun h => forallb (roundTripsAt h) (countUp 60)) (countUp 24) = true.
Proof. vm_compute. reflexivity. Qed.

Lemma roundTripsAt_clock hour min :
  0 <= hour <= 23 -> 0 <= min <= 59 -> roundTripsAt hour min = true.
Proof.
  intros Hh Hm. pose proof roundTrips_all as H.
  rewrite forallb_forall in H.
  specialize (H hour (countUp_In 24 hour ltac:(lia))).
  rewrite forallb_forall in H.
  apply H, countUp_In. lia.
Qed.

Lemma clock_bounds (t : Time) : 0 <= Hour_ t <= 23 /\ 0 <= Minute_ t <= 59.
Proof. unfold Hour_, Minute_. zdiv. Qed.

(** The text of a time of day is accepted, is read back as that time, and
    has five characters. *)
Lemma clockText_reads_back hour min :
  0 <= hour <= 23 -> 0 <= min <= 59 ->
  isValidTimeFormat (clockText hour min) = true /\
  parseTime (clockText hour min) = (hour, min) /\
  String.length (clockText hour min) = 5%nat.
Proof.
  intros Hh Hm.
  pose proof (roundTripsAt_clock _ _ Hh Hm) as H.
  unfold roundTripsAt in H. unfold parseTime.
  destruct (Sscanf_d_colon_d (clockText hour min)) as [[h m] ok].
  apply andb_prop in H. destruct H as [H Hlen].
  apply andb_prop in H. destruct H as [Hv H].
  apply andb_prop in H. destruct H as [H _].
  apply andb_prop in H. destruct H as [E1 E2].
  apply Z.eqb_eq in E1, E2. apply Nat.eqb_eq in Hlen.
  subst. auto.
Qed.

(** X1: Whatever the instant, [formatTime] prints five characters that
    [isValidTimeFormat] accepts and that [parseTime] reads back as the hour
    and the minute of the instant. *)
Theorem formatTime_roundtrip (t : Time) :
  isValidTimeFormat (formatTime t) = true /\
  parseTime (formatTime t) = (Hour_ t, Minute_ t) /\
  String.length (formatTime t) = 5%nat.
Proof.
  destruct (clock_bounds t) as [Hh Hm].
  change (formatTime t) with (clockText (Hour_ t) (Minute_ t)).
  now apply clockText_reads_back.
Qed.

Lemma toTime_clock a :
  0 <= hour a <= 23 -> 0 <= min a <= 59 ->
  Hour_ (toTime a) = hour a /\ Minute_ (toTime a) = min a.
Proof.
  intros Hh Hm. rewrite toTime_unix.
  unfold Hour_, Minute_, wallSec, unixSec, Spec.todOf, UTC; cbn [unixNano loc].
  change Second with 1000000000. zdiv.
Qed.

(** X2: For a target string the configuration accepts, formatting the time it
    denotes gives a string that is accepted too and denotes the same time:
    [formatTime] after [parseTime] puts a target into the form HH:MM. *)
Theorem parse_format_canonical (target : string)
    (Hwf : Spec.wellFormed target) :
  let text := formatTime (toTime (parsedOf target)) in
  isValidTimeFormat text = true /\
  parseTime text = parseTime target /\
  String.length text = 5%nat.
Proof.
  cbv zeta.
  destruct (wellFormed_scans target Hwf) as (h & m & E & Hh & Hm).
  assert (Ep : parseTime target = (h, m))
    by (unfold parseTime; now rewrite E).
  unfold parsedOf. rewrite Ep.
  change (formatTime (toTime (mkTimeOfDay h m)))
    with (clockText (Hour_ (toTime (mkTimeOfDay h m)))
                    (Minute_ (toTime (mkTimeOfDay h m)))).
  destruct (toTime_clock (mkTimeOfDay h m) Hh Hm) as [-> ->].
  cbn [hour min]. now apply clockText_reads_back.
Qed.

Lemma parse_format_canonical_witness :
  parseTime (formatTime (toTime (parsedOf " 9:5 pm"))) = parseTime " 9:5 pm".
Proof.
  apply (parse_format_canonical " 9:5 pm"). vm_compute. reflexivity.
Defined.
End FormatParse.

(** ** Spacing of target times *)

Section Spacing.
Import GoInt GoTime GoFmt Config Loop ConfigFile Validation.
Local Open Scope string_scope.
Local Open Scope list_scope.
Local Open Scope Z_scope.

Lemma inWindow_spacing a b H0 :
  Spec.inWindow ((a - H0) mod 86400) ((b - H0) mod 86400)
                (((b - H0) mod 86400 + H0) mod 86400) = false
  <-> H0 mod 86400 <> 0 /\ H0 mod 86400 <= (a - b) mod 86400.
Proof.
  unfold Spec.inWindow.
  set (A := (a - H0) mod 86400). set (B := (b - H0) mod 86400).
  set (E := (B + H0) mod 86400).
  assert (HA : 0 <= A < 86400) by (subst A; zdiv).
  assert (HB : 0 <= B < 86400) by (subst B; zdiv).
  assert (HE : E = b mod 86400) by (subst E B; zdiv).
  set (H := H0 mod 86400). assert (HH : 0 <= H < 86400) by (subst H; zdiv).
  set (D := (a - b) mod 86400).
  assert (HD : D = (A - B) mod 86400) by (subst D A B; zdiv).
  assert (HEB : E = (B + H) mod 86400) by (subst E B H; zdiv).
  clearbody A B E H D. clear HE.
  destruct (B <? E) eqn:C1; [apply Z.ltb_lt in C1|apply Z.ltb_ge in C1].
  - rewrite andb_false_iff, Z.leb_gt, Z.ltb_ge. subst D E. zdiv.
  - rewrite orb_false_iff, Z.leb_gt, Z.ltb_ge. subst D E. zdiv.
Qed.
End Spacing.

Section SchedulerValidation.
Import GoInt GoTime GoFmt Config Loop ConfigFile Validation Derived.
Local Open Scope string_scope.
Local Open Scope list_scope.
Local Open Scope Z_scope.

(** The windows of the validator, as distances around the clock. *)
Lemma NoConflict_apart targetTimes intervalHours :
  Spec.NoConflict Spec.inWindow targetTimes intervalHours
  <-> Spec.AtDistinct (apart intervalHours) targetTimes.
Proof.
  unfold Spec.NoConflict, Spec.AtDistinct, apart, windowSeconds,
    Spec.quotaEndTod, Spec.triggerTod.
  split; intros H i j a b Hij Hi Hj; specialize (H i j a b Hij Hi Hj);
    apply inWindow_spacing; exact H.
Qed.

(** X3: Validation of the target times succeeds exactly when every target
    comes, going forward around the clock from each other target, at least
    the interval reduced modulo 24 hours later, and that reduced interval
    is not zero when there are two targets.  So for fewer than 24 hours the
    targets are at least the interval apart, and for 25 hours they need be
    one hour apart only. *)
Theorem validate_spacing (targetTimes : list string) (intervalHours : Z)
    (Hwf : Forall Spec.wellFormed targetTimes)
    (Hfit : Spec.hoursFit intervalHours) :
  validateTargetTimesConflict targetTimes intervalHours = None
  <-> Spec.AtDistinct (apart intervalHours) targetTimes.
Proof.
  rewrite validate_NoConflict by assumption.
  apply NoConflict_apart.
Qed.

Lemma validate_spacing_witness :
  validateTargetTimesConflict ["23:00"; "05:00"; "12:30"] 6 = None
  <-> Spec.AtDistinct (apart 6) ["23:00"; "05:00"; "12:30"].
Proof.
  apply (validate_spacing ["23:00"; "05:00"; "12:30"] 6).
  - repeat constructor; vm_compute; reflexivity.
  - unfold Spec.hoursFit. lia.
Defined.

Lemma find_invalid_None ts :
  find (fun t => negb (isValidTimeFormat t)) ts = None
  <-> Forall Spec.wellFormed ts.
Proof.
  unfold Spec.wellFormed. induction ts as [|t ts IH]; cbn [find].
  - split; [constructor|reflexivity].
  - destruct (isValidTimeFormat t) eqn:E; cbn [negb].
    + rewrite IH. split; [now constructor|now inversion 1].
    + split; [discriminate|]. inversion 1. congruence.
Qed.

(** What [ValidateScheduler] has checked when it returns nil. *)
Lemma scheduler_checks (c : Config) :
  let s := Scheduler_ c in
  ValidateScheduler c = None
  <-> 0 < IntervalHours s <= 168 /\
      TargetTimes s <> [] /\
      Forall Spec.wellFormed (TargetTimes s) /\
      0 <= SafetyBufferSeconds s <= 3600 /\
      validateTargetTimesConflict (TargetTimes s) (IntervalHours s) = None.
Proof.
  cbv zeta. unfold ValidateScheduler.
  destruct (Scheduler_ c) as [h ts b]. cbn [IntervalHours TargetTimes
    SafetyBufferSeconds].
  destruct (Z.leb_spec h 0); [split; [discriminate|lia]|].
  destruct (Z.ltb_spec 168 h); [split; [discriminate|lia]|].
  destruct ts as [|t0 ts']; [split; [discriminate|intuition congruence]|].
  cbn [List.length Nat.eqb].
  set (ts := t0 :: ts') in *.
  destruct (find _ ts) as [t|] eqn:Ef.
  { split; [discriminate|]. intros (_ & _ & Hwf & _).
    apply find_invalid_None in Hwf. congruence. }
  apply find_invalid_None in Ef.
  destruct (Z.ltb_spec b 0); [split; [discriminate|lia]|].
  destruct (Z.ltb_spec 3600 b); [split; [discriminate|lia]|].
  destruct (validateTargetTimesConflict ts h) as [e|].
  - split; [discriminate|]. intros (_ & _ & _ & _ & Hd). discriminate.
  - split; [|reflexivity]. intros _.
    split; [lia|]. split; [discriminate|]. split; [assumption|].
    split; [lia|reflexivity].
Qed.

(** X4: [ValidateScheduler] accepts a configuration exactly when the interval
    is from 1 to 168 hours, there is a target time, every target time is
    well-formed, the buffer is from 0 to 3600 seconds, and every target
    comes at least the interval reduced modulo 24 hours after each
    other target, going forward around the clock. *)
Theorem ValidateScheduler_accepts (c : Config) :
  let s := Scheduler_ c in
  ValidateScheduler c = None
  <-> 0 < IntervalHours s <= 168 /\
      TargetTimes s <> [] /\
      Forall Spec.wellFormed (TargetTimes s) /\
      0 <= SafetyBufferSeconds s <= 3600 /\
      Spec.AtDistinct (apart (IntervalHours s)) (TargetTimes s).
Proof.
  cbv zeta. rewrite scheduler_checks. cbv zeta.
  split; intros (Hh & Hne & Hwf & Hb & Hv);
    (split; [exact Hh|]; split; [exact Hne|]; split; [exact Hwf|];
     split; [exact Hb|]).
  - apply NoConflict_apart, validate_NoConflict; [unfold Spec.hoursFit; lia|].
    exact Hv.
  - apply validate_NoConflict; [unfold Spec.hoursFit; lia|].
    apply NoConflict_apart. exact Hv.
Qed.
End SchedulerValidation.

(** ** Loading and validating a configuration, creating the platform *)

Section Startup.
Import GoInt GoTime GoFmt Config Loop ConfigFile Validation Platform Derived.
Local Open Scope string_scope.
Local Open Scope list_scope.
Local Open Scope Z_scope.

(** X5: [Load] passes on the failure of reading or of parsing; otherwise it
    returns what was parsed, except that a safety buffer of 0 has become 60
    and nil options have become an empty map.  So a configuration from
    [Load] never has a buffer of 0, and [ValidatePlatform] never finds its
    options missing. *)
Theorem Load_defaults (ReadFile : string -> error + string)
    (Unmarshal : string -> error + Config) (path : string) :
  match Load ReadFile Unmarshal path with
  | inl (readFailed e) => ReadFile path = inl e
  | inl (parseFailed e) =>
      exists data, ReadFile path = inr data /\ Unmarshal data = inl e
  | inr c =>
      exists data parsed,
        ReadFile path = inr data /\ Unmarshal data = inr parsed /\
        IntervalHours (Scheduler_ c) = IntervalHours (Scheduler_ parsed) /\
        TargetTimes (Scheduler_ c) = TargetTimes (Scheduler_ parsed) /\
        SafetyBufferSeconds (Scheduler_ c) =
          (if SafetyBufferSeconds (Scheduler_ parsed) =? 0 then 60
           else SafetyBufferSeconds (Scheduler_ parsed)) /\
        SafetyBufferSeconds (Scheduler_ c) <> 0 /\
        Type_ (Platform_ c) = Type_ (Platform_ parsed) /\
        BaseURL (Platform_ c) = BaseURL (Platform_ parsed) /\
        (forall key, lookup (Options_ (Platform_ c)) key =
                     lookup (Options_ (Platform_ parsed)) key) /\
        Options_ (Platform_ c) <> None /\
        ValidatePlatform c <> Some optionsRequired
  end.
Proof.
  unfold Load.
  destruct (ReadFile path) as [e|data]; [reflexivity|].
  destruct (Unmarshal data) as [e|parsed] eqn:Eu; [now exists data|].
  exists data, parsed.
  destruct parsed as [[h ts b] [ty url opts]].
  cbn [Scheduler_ Platform_ IntervalHours TargetTimes SafetyBufferSeconds
       Type_ BaseURL Options_].
  assert (Hopt : match opts with
                 | Some _ => mkPlatformConfig ty url opts
                 | None => mkPlatformConfig ty url (Some [])
                 end
                 = mkPlatformConfig ty url
                     (match opts with Some l => Some l | None => Some [] end))
    by (destruct opts; reflexivity).
  rewrite Hopt. clear Hopt.
  split; [reflexivity|]. split; [exact Eu|].
  assert (Hb : SafetyBufferSeconds
                 (if b =? 0 then mkSchedulerConfig h ts 60
                  else mkSchedulerConfig h ts b)
               = (if b =? 0 then 60 else b))
    by (destruct (b =? 0); reflexivity).
  split; [destruct (b =? 0); reflexivity|].
  split; [destruct (b =? 0); reflexivity|].
  split; [exact Hb|].
  split; [rewrite Hb; destruct (Z.eqb_spec b 0); lia|].
  split; [reflexivity|]. split; [reflexivity|].
  split; [intros key; destruct opts; reflexivity|].
  split; [destruct opts; discriminate|].
  unfold ValidatePlatform. cbn [Platform_ Type_ BaseURL Options_].
  destruct (String.eqb ty EmptyString); [discriminate|].
  destruct (negb _); [discriminate|].
  destruct (String.eqb url EmptyString); [discriminate|].
  destruct opts; discriminate.
Qed.

(** What [ValidatePlatform] has checked when it returns nil. *)
Lemma platform_checks (c : Config) :
  ValidatePlatform c = None
  <-> Type_ (Platform_ c) = "anthropic" /\
      BaseURL (Platform_ c) <> EmptyString /\
      Options_ (Platform_ c) <> None.
Proof.
  unfold ValidatePlatform, supportedTypes. cbn [existsb].
  destruct (Platform_ c) as [ty url opts]. cbn [Type_ BaseURL Options_].
  rewrite orb_false_r.
  destruct (String.eqb_spec ty EmptyString) as [->|Hty].
  { split; [discriminate|]. intros (H & _). discriminate. }
  destruct (String.eqb_spec ty "anthropic") as [->|Hty'].
  - cbn [negb].
    destruct (String.eqb_spec url EmptyString) as [->|Hurl].
    { split; [discriminate|]. intros (_ & H & _). congruence. }
    destruct opts as [l|].
    + split; [|reflexivity]. intros _. repeat split; congruence.
    + split; [discriminate|]. intros (_ & _ & H). congruence.
  - cbn [negb]. split; [discriminate|]. intros (H & _). congruence.
Qed.

(** X6: [Validate] accepts a configuration exactly when [ValidateScheduler]
    does, the platform type is "anthropic", the base URL is not empty and
    the options are not nil; an error of the scheduler part is reported
    before any error of the platform part. *)
Theorem Validate_accepts (c : Config) :
  (Validate c = None
   <-> ValidateScheduler c = None /\
       Type_ (Platform_ c) = "anthropic" /\
       BaseURL (Platform_ c) <> EmptyString /\
       Options_ (Platform_ c) <> None) /\
  (forall err, ValidateScheduler c = Some err -> Validate c = Some err).
Proof.
  unfold Validate. split.
  - rewrite <- platform_checks.
    destruct (ValidateScheduler c) as [e|];
      [split; [discriminate|intros [H _]; discriminate]|].
    destruct (ValidatePlatform c) as [e|].
    + split; [discriminate|intros [_ H]; discriminate].
    + split; auto.
  - intros err ->. reflexivity.
Qed.

(** X7: After [Validate] has accepted the configuration, [NewPlatform] on the
    input [main] builds from it never answers that the platform is
    unsupported: it fails exactly when the option api_key is missing or is
    not a string; and the platform it creates has the configured base URL,
    so [ValidateConfig] never reports the base URL missing. *)
Theorem validated_platform_is_created (c : Config)
    (Hok : Validate c = None) :
  (NewPlatform (inputOf c) = inl apiKeyRequired
   <-> asString (lookup (Options_ (Platform_ c)) "api_key") = None) /\
  (forall p, NewPlatform (inputOf c) = inr p ->
     baseURL p = BaseURL (Platform_ c) /\
     Some (apiKey p) = asString (lookup (Options_ (Platform_ c)) "api_key") /\
     ValidateConfig p <> Some baseURLMissing) /\
  (forall type_, NewPlatform (inputOf c) <> inl (UnsupportedPlatformError type_)).
Proof.
  assert (Hp : ValidatePlatform c = None).
  { unfold Validate in Hok. destruct (ValidateScheduler c); [discriminate|].
    destruct (ValidatePlatform c); [discriminate|reflexivity]. }
  apply platform_checks in Hp. destruct Hp as (Hty & Hurl & _).
  unfold NewPlatform, inputOf, NewAnthropicPlatform.
  cbn [inputType inputBaseURL inputOptions]. rewrite Hty.
  cbn [String.eqb Ascii.eqb Bool.eqb].
  destruct (asString (lookup (Options_ (Platform_ c)) "api_key")) as [k|].
  - split; [split; discriminate|]. split; [|discriminate].
    intros p [= <-]. cbn [baseURL apiKey]. repeat split.
    unfold ValidateConfig. cbn [baseURL].
    destruct (String.eqb_spec (BaseURL (Platform_ c)) EmptyString);
      [congruence|].
    destruct (String.eqb _ _); [discriminate|].
    destruct (String.eqb _ _); discriminate.
  - split; [split; reflexivity|]. split; [discriminate|discriminate].
Qed.

Lemma validated_platform_is_created_witness :
  NewPlatform (inputOf exampleConfig) = inl apiKeyRequired
  <-> asString (lookup (Options_ (Platform_ exampleConfig)) "api_key") = None.
Proof.
  apply (validated_platform_is_created exampleConfig).
  vm_compute. reflexivity.
Defined.
End Startup.
(** ** The retries of the Anthropic platform *)

Section Retries.
Import GoInt GoTime Loop ConfigFile Platform Derived.
Local Open Scope list_scope.
Local Open Scope Z_scope.

Variable doTrigger : nat -> option error.
Variable p : AnthropicPlatform.

Lemma requests_app l l' : requests (l ++ l') = (requests l + requests l')%nat.
Proof. unfold requests. now rewrite filter_app, length_app. Qed.

Lemma sleptTotal_app l l' : sleptTotal (l ++ l') = sleptTotal l + sleptTotal l'.
Proof.
  unfold sleptTotal. induction l as [|e l IH]; cbn [app fold_right]; [lia|].
  destruct e; lia.
Qed.

(** The counter does not wrap while it is at most [maxRetries], unless
    [maxRetries] is the greatest integer. *)
Lemma next_attempt attempt :
  minInt64 <= attempt <= maxRetries p -> maxRetries p < maxInt64 ->
  wrap64 (attempt + 1) = attempt + 1.
Proof. intros Ha Hm. apply wrap64_fits. lia. Qed.

(** A pass makes one request. *)
Lemma request_counted attempt done :
  requests
    ((if 0 <? attempt
      then done ++ [retryLogged attempt (maxRetries p);
                    slept (durationOf attempt Second)]
      else done) ++ [requested])
  = S (requests done).
Proof.
  destruct (0 <? attempt); rewrite !requests_app; unfold requests;
    cbn [filter List.length]; lia.
Qed.

(** Before its request, a pass sleeps as many seconds as the counter
    says. *)
Lemma sleep_counted attempt done :
  0 <= attempt <= 9223372036 ->
  sleptTotal
    ((if 0 <? attempt
      then done ++ [retryLogged attempt (maxRetries p);
                    slept (durationOf attempt Second)]
      else done) ++ [requested])
  = sleptTotal done + attempt * Second.
Proof.
  intros Ha.
  assert (Hd : durationOf attempt Second = attempt * Second).
  { apply seconds_duration. unfold Spec.secondsFit. lia. }
  destruct (Z.ltb_spec 0 attempt).
  - rewrite !sleptTotal_app, Hd. unfold sleptTotal. cbn [fold_right]. lia.
  - replace attempt with 0 by lia.
    rewrite !sleptTotal_app. unfold sleptTotal. cbn [fold_right]. lia.
Qed.

Lemma retryLoop_succeeds n : forall fuel attempt calls lastErr done,
  0 <= attempt ->
  (n < fuel)%nat ->
  attempt + Z.of_nat n <= maxRetries p ->
  attempt + Z.of_nat n <= 9223372036 ->
  (forall k, (k < n)%nat -> doTrigger (calls + k) <> None) ->
  doTrigger (calls + n) = None ->
  exists events,
    retryLoop doTrigger p fuel attempt calls lastErr done
      = Some (succeeded, events) /\
    requests events = (requests done + S n)%nat /\
    2 * sleptTotal events =
      2 * sleptTotal done
      + (Z.of_nat n + 1) * (2 * attempt + Z.of_nat n) * Second.
Proof.
  induction n as [|n IH]; intros fuel attempt calls lastErr done
    Ha Hfuel Hmax Hfit Hfail Hok;
    (destruct fuel as [|fuel]; [lia|]); cbn [retryLoop];
    (destruct (Z.leb_spec attempt (maxRetries p)); [|lia]);
    pose proof (request_counted attempt done) as Hr;
    pose proof (sleep_counted attempt done ltac:(lia)) as Hs.
  - rewrite Nat.add_0_r in Hok. rewrite Hok.
    eexists. split; [reflexivity|]. split; [lia|].
    rewrite Hs. change (Z.of_nat 0) with 0. lia.
  - destruct (doTrigger calls) as [err|] eqn:Ec.
    2:{ exfalso. apply (Hfail 0%nat); [lia|]. now rewrite Nat.add_0_r. }
    assert (Hw : wrap64 (attempt + 1) = attempt + 1).
    { apply wrap64_fits. unfold minInt64, maxInt64. lia. }
    rewrite Hw.
    edestruct (IH fuel (attempt + 1) (S calls) (Some err)) as (ev & E & Er & Es);
      [lia|lia|lia|lia| | |].
    + intros k Hk. replace (S calls + k)%nat with (calls + S k)%nat by lia.
      apply Hfail. lia.
    + replace (S calls + n)%nat with (calls + S n)%nat by lia. exact Hok.
    + exists ev. split; [exact E|].
      rewrite requests_app in Er. rewrite sleptTotal_app in Es.
      change (requests [failureLogged (attempt + 1) err]) with 0%nat in Er.
      change (sleptTotal [failureLogged (attempt + 1) err]) with 0 in Es.
      split; [lia|]. rewrite Es, Hs. lia.
Qed.

Lemma retryLoop_gives_up n : forall fuel attempt calls lastErr done,
  0 <= attempt ->
  Z.of_nat n = maxRetries p + 1 - attempt ->
  maxRetries p < maxInt64 ->
  (n <= fuel)%nat ->
  (forall k, (k < n)%nat -> doTrigger (calls + k) <> None) ->
  exists events,
    retryLoop doTrigger p fuel attempt calls lastErr done
      = Some (failedAfter (maxRetries p + 1)
                (match n with
                 | O => lastErr
                 | S m => doTrigger (calls + m)
                 end), events) /\
    requests events = (requests done + n)%nat.
Proof.
  assert (Hmsg : maxRetries p < maxInt64 -> 0 <= maxRetries p + 1 ->
                 wrap64 (maxRetries p + 1) = maxRetries p + 1).
  { intros H1 H2. apply wrap64_fits. unfold minInt64, maxInt64 in *. lia. }
  induction n as [|n IH]; intros fuel attempt calls lastErr done
    Ha Hn Hfit Hfuel Hfail.
  - destruct fuel; cbn [retryLoop];
      (destruct (Z.leb_spec attempt (maxRetries p)); [lia|]);
      rewrite Hmsg by lia; eexists; (split; [reflexivity|lia]).
  - destruct fuel as [|fuel]; [lia|]. cbn [retryLoop].
    destruct (Z.leb_spec attempt (maxRetries p)); [|lia].
    pose proof (request_counted attempt done) as Hr.
    destruct (doTrigger calls) as [err|] eqn:Ec.
    2:{ exfalso. apply (Hfail 0%nat); [lia|]. now rewrite Nat.add_0_r. }
    rewrite next_attempt by (unfold minInt64; lia).
    edestruct (IH fuel (attempt + 1) (S calls) (Some err)) as (ev & E & Er);
      [lia|lia|lia|lia| |].
    + intros k Hk. replace (S calls + k)%nat with (calls + S k)%nat by lia.
      apply Hfail. lia.
    + exists ev. rewrite E. split.
      * destruct n as [|m]; [now rewrite Nat.add_0_r, Ec|].
        now replace (S calls + m)%nat with (calls + S m)%nat by lia.
      * rewrite requests_app in Er.
        change (requests [failureLogged (attempt + 1) err]) with 0%nat in Er.
        lia.
Qed.

Lemma retryLoop_bounded n : forall fuel attempt calls lastErr done,
  minInt64 <= attempt ->
  maxRetries p + 1 - attempt <= Z.of_nat n ->
  maxRetries p < maxInt64 ->
  (n <= fuel)%nat ->
  exists result events,
    retryLoop doTrigger p fuel attempt calls lastErr done
      = Some (result, events) /\
    (requests done <= requests events <= requests done + n)%nat /\
    (result = succeeded ->
     (requests done < requests events)%nat /\
     doTrigger (calls + (requests events - requests done - 1)) = None) /\
    (forall attempts last,
        result = failedAfter attempts last ->
        attempts = wrap64 (maxRetries p + 1) /\
        forall k, (k < requests events - requests done)%nat ->
                  doTrigger (calls + k) <> None).
Proof.
  induction n as [|n IH]; intros fuel attempt calls lastErr done
    Ha Hn Hfit Hfuel.
  - destruct fuel; cbn [retryLoop];
      (destruct (Z.leb_spec attempt (maxRetries p)); [lia|]);
      do 2 eexists; (split; [reflexivity|]); (split; [lia|]);
      (split; [discriminate|]); intros ? ? [= <- _];
      (split; [reflexivity|]); intros k Hk; lia.
  - destruct fuel as [|fuel]; [lia|]. cbn [retryLoop].
    destruct (Z.leb_spec attempt (maxRetries p)).
    2:{ do 2 eexists. split; [reflexivity|]. split; [lia|].
        split; [discriminate|]. intros ? ? [= <- _].
        split; [reflexivity|]. intros k Hk. lia. }
    pose proof (request_counted attempt done) as Hr.
    set (done' := (if 0 <? attempt
                   then done ++ [retryLogged attempt (maxRetries p);
                                 slept (durationOf attempt Second)]
                   else done) ++ [requested]) in *.
    destruct (doTrigger calls) as [err|] eqn:Ec.
    + rewrite next_attempt by lia.
      destruct (IH fuel (attempt + 1) (S calls) (Some err)
                   (done' ++ [failureLogged (attempt + 1) err]))
        as (res & ev & E & Hle & Hs & Hf); [lia|lia|lia|lia|].
      rewrite requests_app, Hr in Hle, Hs, Hf.
      change (requests [failureLogged (attempt + 1) err]) with 0%nat
        in Hle, Hs, Hf.
      exists res, ev. split; [exact E|]. split; [lia|]. split.
      * intros Hres. destruct (Hs Hres) as (Hlt & Hok). split; [lia|].
        replace (calls + (requests ev - requests done - 1))%nat
          with (S calls + (requests ev - (S (requests done) + 0) - 1))%nat
          by lia.
        exact Hok.
      * intros attempts last Hres. destruct (Hf _ _ Hres) as [Hat Hall].
        split; [exact Hat|]. intros k Hk.
        destruct k as [|k]; [rewrite Nat.add_0_r, Ec; discriminate|].
        replace (calls + S k)%nat with (S calls + k)%nat by lia.
        apply Hall. lia.
    + exists succeeded, done'. split; [reflexivity|]. split; [lia|].
      split; [|discriminate].
      intros _. split; [lia|].
      replace (requests done' - requests done - 1)%nat with 0%nat by lia.
      now rewrite Nat.add_0_r.
Qed.

(** X8: when the first [n] requests fail and the next one succeeds, [n]
    being at most the configured retries, [Trigger] returns nil after
    exactly [n + 1] requests, having slept 1 + 2 + ... + [n] seconds in
    all: the delay grows by one second per retry.  ([fuel] more than [n]
    passes is enough.) *)
Theorem Trigger_succeeds_after (n fuel : nat)
    (Hretries : Z.of_nat n <= maxRetries p)
    (Hsmall : Z.of_nat n <= 9223372036)
    (Hfail : allFail doTrigger n)
    (Hok : doTrigger n = None)
    (Hfuel : (n < fuel)%nat) :
  exists events,
    Trigger doTrigger p fuel = Some (succeeded, events) /\
    requests events = S n /\
    2 * sleptTotal events = Z.of_nat n * (Z.of_nat n + 1) * Second.
Proof.
  unfold Trigger.
  destruct (retryLoop_succeeds n fuel 0 0%nat None [])
    as (ev & E & Er & Es); try lia; auto.
  exists ev. split; [exact E|]. split; [exact Er|].
  rewrite Es. unfold sleptTotal. cbn [fold_right]. lia.
Qed.

(** X9: when every request fails, [Trigger] makes one request more than
    the configured retries and returns the error that counts them and
    wraps the error of the last request.  ([fuel] for [maxRetries + 1]
    passes is enough.) *)
Theorem Trigger_gives_up (fuel : nat)
    (Hretries : 0 <= maxRetries p < maxInt64)
    (Hfail : allFail doTrigger (Z.to_nat (maxRetries p + 1)))
    (Hfuel : (Z.to_nat (maxRetries p + 1) <= fuel)%nat) :
  exists events,
    Trigger doTrigger p fuel
      = Some (failedAfter (maxRetries p + 1)
                          (doTrigger (Z.to_nat (maxRetries p))), events) /\
    requests events = Z.to_nat (maxRetries p + 1) /\
    doTrigger (Z.to_nat (maxRetries p)) <> None.
Proof.
  unfold Trigger.
  destruct (retryLoop_gives_up (Z.to_nat (maxRetries p + 1)) fuel 0 0%nat
              None [])
    as (ev & E & Er); try lia; auto.
  exists ev.
  replace (Z.to_nat (maxRetries p + 1)) with (S (Z.to_nat (maxRetries p)))
    in * by lia.
  split; [exact E|]. split; [exact Er|]. apply Hfail. lia.
Qed.

(** X10: with a negative number of retries [Trigger] makes no request at
    all and returns the error for [maxRetries + 1] attempts, which wraps
    no error. *)
Theorem Trigger_negative_retries (fuel : nat)
    (Hneg : minInt64 <= maxRetries p < 0) :
  Trigger doTrigger p fuel = Some (failedAfter (maxRetries p + 1) None, []).
Proof.
  unfold Trigger.
  assert (Hw : wrap64 (maxRetries p + 1) = maxRetries p + 1).
  { apply wrap64_fits. unfold minInt64, maxInt64 in *. lia. }
  destruct fuel; cbn [retryLoop];
    (destruct (Z.leb_spec 0 (maxRetries p)); [lia|]); now rewrite Hw.
Qed.

(** X11: whatever the requests answer, [Trigger] ends, having made at
    most one request more than the configured retries (fewer than the
    greatest integer).  When it returns nil, the last request it made is
    one that succeeded; when it returns an error, every request it made
    has failed and the error counts [maxRetries + 1] attempts.  ([fuel]
    for [maxRetries + 1] passes is enough.) *)
Theorem Trigger_bounded (fuel : nat)
    (Hretries : minInt64 <= maxRetries p < maxInt64)
    (Hfuel : (Z.to_nat (maxRetries p + 1) <= fuel)%nat) :
  exists result events,
    Trigger doTrigger p fuel = Some (result, events) /\
    (requests events <= Z.to_nat (maxRetries p + 1))%nat /\
    (result = succeeded ->
     (0 < requests events)%nat /\ doTrigger (requests events - 1) = None) /\
    (forall attempts last,
        result = failedAfter attempts last ->
        attempts = maxRetries p + 1 /\
        allFail doTrigger (requests events)).
Proof.
  unfold Trigger.
  destruct (retryLoop_bounded (Z.to_nat (maxRetries p + 1)) fuel 0 0%nat
              None [])
    as (res & ev & E & Hle & Hs & Hf);
    [unfold minInt64; lia|lia|lia|lia|].
  change (requests []) with 0%nat in *.
  exists res, ev. split; [exact E|]. split; [lia|]. split.
  - intros Hres. destruct (Hs Hres) as (Hlt & Hok). split; [lia|].
    rewrite Nat.sub_0_r in Hok. exact Hok.
  - intros attempts last Hres. destruct (Hf _ _ Hres) as [Hat Hall].
    split.
    + rewrite Hat. apply wrap64_fits. unfold minInt64, maxInt64 in *. lia.
    + intros k Hk. apply (Hall k). lia.
Qed.
End Retries.

Section RetryWitnesses.
Import GoInt GoTime Loop Platform Derived.

Lemma Trigger_succeeds_after_witness :
  exists events,
    Trigger (failsFirst 2) (examplePlatform 3) 4 = Some (succeeded, events) /\
    requests events = 3%nat /\
    2 * sleptTotal events = Z.of_nat 2 * (Z.of_nat 2 + 1) * Second.
Proof.
  apply (Trigger_succeeds_after (failsFirst 2) (examplePlatform 3) 2 4).
  - cbn. lia.
  - cbn. lia.
  - intros k Hk. unfold failsFirst.
    destruct (Nat.ltb_spec k 2); [discriminate|lia].
  - reflexivity.
  - lia.
Defined.

Lemma Trigger_gives_up_witness :
  exists events,
    Trigger (failsFirst 5) (examplePlatform 1) 2
      = Some (failedAfter 2 (Some (errorString "request failed")), events) /\
    requests events = 2%nat /\
    failsFirst 5 1 <> None.
Proof.
  apply (Trigger_gives_up (failsFirst 5) (examplePlatform 1) 2).
  - cbn. unfold maxInt64. lia.
  - intros k Hk. cbn in Hk. unfold failsFirst.
    destruct (Nat.ltb_spec k 5); [discriminate|lia].
  - cbn. lia.
Defined.

Lemma Trigger_negative_retries_witness :
  Trigger (failsFirst 0) (examplePlatform (-1)) 0
  = Some (failedAfter 0 None, []).
Proof.
  apply (Trigger_negative_retries (failsFirst 0) (examplePlatform (-1)) 0).
  cbn. unfold minInt64. lia.
Defined.

Lemma Trigger_bounded_witness :
  exists result events,
    Trigger (failsFirst 1) (examplePlatform 3) 4 = Some (result, events) /\
    (requests events <= 4)%nat /\
    (result = succeeded ->
     (0 < requests events)%nat /\
     failsFirst 1 (requests events - 1) = None) /\
    (forall attempts last,
        result = failedAfter attempts last ->
        attempts = 4 /\ allFail (failsFirst 1) (requests events)).
Proof.
  apply (Trigger_bounded (failsFirst 1) (examplePlatform 3) 4).
  - cbn. unfold minInt64, maxInt64. lia.
  - cbn. lia.
Defined.
End RetryWitnesses.

(** ** More on the trigger calculator *)

Section CalculatorMore.
Import GoInt GoTime GoFmt Config Scheduler Derived.
Local Open Scope string_scope.
Local Open Scope list_scope.
Local Open Scope Z_scope.

Lemma triggerOf_targets date interval buffer ts :
  map TargetTime (flat_map (triggerOf date interval buffer) ts)
  = filter scans ts.
Proof.
  induction ts as [|t ts IH]; cbn [flat_map filter]; [reflexivity|].
  rewrite map_app, IH. unfold triggerOf, scans.
  destruct (Sscanf_d_colon_d t) as [[hour min] ok].
  destruct ok; reflexivity.
Qed.

Lemma triggers_targets date targetTimes intervalHours bufferSeconds :
  Permutation
    (map TargetTime
       (CalculateDailyTriggers date targetTimes intervalHours bufferSeconds))
    (filter scans targetTimes).
Proof.
  unfold CalculateDailyTriggers.
  rewrite <- (triggerOf_targets date (durationOf intervalHours Hour)
                (durationOf bufferSeconds Second)).
  apply Permutation_map, Slice_perm.
Qed.

Lemma triggers_nil date targetTimes intervalHours bufferSeconds :
  CalculateDailyTriggers date targetTimes intervalHours bufferSeconds = []
  <-> forall t, In t targetTimes -> scans t = false.
Proof.
  pose proof (triggers_targets date targetTimes intervalHours bufferSeconds)
    as Hp.
  split.
  - intros E t Ht. rewrite E in Hp. cbn [map] in Hp.
    apply Permutation_nil in Hp.
    destruct (scans t) eqn:Es; [|reflexivity].
    assert (Hin : In t (filter scans targetTimes))
      by (apply filter_In; auto).
    rewrite Hp in Hin. destruct Hin.
  - intros H.
    assert (Hf : filter scans targetTimes = []).
    { clear Hp. induction targetTimes as [|t ts IH]; [reflexivity|].
      cbn [filter]. rewrite (H t (or_introl eq_refl)).
      apply IH. intros t' Ht'. apply H. now right. }
    rewrite Hf in Hp. apply Permutation_sym, Permutation_nil in Hp.
    now apply map_eq_nil in Hp.
Qed.

(** X12: Whatever the target strings, [CalculateDailyTriggers] returns one
    trigger for each string that [Sscanf] reads and none for the others,
    in ascending order of instants; of an empty list, or of strings none
    of which can be read, it returns no trigger. *)
Theorem CalculateDailyTriggers_skips (date : Time) (targetTimes : list string)
    (intervalHours bufferSeconds : Z) :
  let triggers :=
    CalculateDailyTriggers date targetTimes intervalHours bufferSeconds in
  Permutation (map TargetTime triggers) (filter scans targetTimes) /\
  StronglySorted Spec.notLater triggers /\
  (triggers = [] <-> forall t, In t targetTimes -> scans t = false).
Proof.
  cbv zeta. split; [apply triggers_targets|].
  split; [apply lessTrigger_sorted|apply triggers_nil].
Qed.

(** In a list in ascending order, [find] returns the least element that
    passes the test. *)
Lemma find_sorted_least {A} (le : A -> A -> Prop) (f : A -> bool) l x :
  (forall a, le a a) ->
  StronglySorted le l ->
  find f l = Some x ->
  In x l /\ f x = true /\ forall y, In y l -> f y = true -> le x y.
Proof.
  intros Hrefl Hs. induction Hs as [|a l Hs IH Ha]; cbn [find];
    [discriminate|].
  destruct (f a) eqn:Ea.
  - intros [= <-]. split; [now left|]. split; [exact Ea|].
    intros y [<-|Hy] _; [apply Hrefl|].
    rewrite Forall_forall in Ha. now apply Ha.
  - intros E. destruct (IH E) as (Hin & Hf & Hle).
    split; [now right|]. split; [exact Hf|].
    intros y [<-|Hy] Hfy; [congruence|now apply Hle].
Qed.

(** X13: The search of [NextTrigger], with today the instant [now] truncated to
    a multiple of 24 hours: the earliest of today's triggers strictly after
    [now]; or, none of today's being after [now], the earliest of
    tomorrow's, whether it is after [now] or not; or, when no target string
    can be read, a trigger without target 24 hours after [now]. *)
Theorem NextTrigger_search (now : Time) (targetTimes : list string)
    (intervalHours bufferSeconds : Z) :
  let today := Truncate now (24 * Hour) in
  let tomorrow := Add today (24 * Hour) in
  let todays :=
    CalculateDailyTriggers today targetTimes intervalHours bufferSeconds in
  let tomorrows :=
    CalculateDailyTriggers tomorrow targetTimes intervalHours bufferSeconds in
  let t := fst (NextTrigger now targetTimes intervalHours bufferSeconds) in
  let date := snd (NextTrigger now targetTimes intervalHours bufferSeconds) in
  (In t todays /\ date = today /\
   After (TriggerTime t) now = true /\
   forall t', In t' todays -> After (TriggerTime t') now = true ->
              Spec.notLater t t') \/
  (In t tomorrows /\ date = tomorrow /\
   (forall t', In t' todays -> After (TriggerTime t') now = false) /\
   forall t', In t' tomorrows -> Spec.notLater t t') \/
  (t = mkDailyTrigger EmptyString (Add now (24 * Hour)) /\
   date = tomorrow /\
   forall s, In s targetTimes -> scans s = false).
Proof.
  cbv zeta. unfold NextTrigger.
  set (today := Truncate now (24 * Hour)).
  set (tomorrow := Add today (24 * Hour)).
  destruct (find _ _) as [t|] eqn:Ef.
  - left. cbn [fst snd].
    destruct (find_sorted_least Spec.notLater _ _ _
                ltac:(intros a; unfold Spec.notLater; lia)
                (lessTrigger_sorted _) Ef) as (Hin & Hf & Hle).
    auto.
  - right.
    assert (Hnone : forall t', In t'
              (CalculateDailyTriggers today targetTimes intervalHours
                                      bufferSeconds) ->
              After (TriggerTime t') now = false).
    { intros t' Hin. apply (find_none _ _ Ef t' Hin). }
    destruct (CalculateDailyTriggers tomorrow targetTimes intervalHours
                                     bufferSeconds) as [|t l] eqn:Et.
    + right. cbn [fst snd]. split; [reflexivity|]. split; [reflexivity|].
      apply (triggers_nil tomorrow targetTimes intervalHours bufferSeconds).
      exact Et.
    + left. cbn [fst snd]. split; [now left|]. split; [reflexivity|].
      split; [exact Hnone|].
      pose proof (lessTrigger_sorted
                    (flat_map (triggerOf tomorrow
                                 (durationOf intervalHours Hour)
                                 (durationOf bufferSeconds Second))
                              targetTimes)) as Hs.
      fold (CalculateDailyTriggers tomorrow targetTimes intervalHours
              bufferSeconds) in Hs.
      rewrite Et in Hs. inversion Hs as [|? ? _ Hall]; subst.
      rewrite Forall_forall in Hall.
      intros t' [<-|Hin]; [unfold Spec.notLater; lia|now apply Hall].
Qed.
End CalculatorMore.

Section FutureTrigger.
Import GoInt GoTime GoFmt Config Scheduler Derived.
Local Open Scope string_scope.
Local Open Scope list_scope.
Local Open Scope Z_scope.

Lemma triggerFor_unix date h b target :
  unixNano (TriggerTime (Spec.triggerFor date h b target)) =
  (dayNumber date * 86400 - loc date + triggerOffset h b target) * Second.
Proof.
  unfold Spec.triggerFor, Spec.triggerInstant, triggerOffset,
    Spec.todSeconds, Spec.atTimeOfDay.
  destruct (parseTime target) as [hour min]. cbn [TriggerTime unixNano].
  f_equal. lia.
Qed.

(** X14: When no trigger of a day falls earlier in that day than midnight UTC
    does (in UTC: when no trigger falls on the day before its target), the
    trigger [NextTrigger] returns for a list of well-formed targets that
    is not empty is strictly after [now]. *)
Theorem NextTrigger_future (now : Time) (targetTimes : list string)
    (intervalHours bufferSeconds : Z)
    (Hne : targetTimes <> [])
    (Hwf : Forall Spec.wellFormed targetTimes)
    (Hh : Spec.hoursFit intervalHours)
    (Hb : Spec.secondsFit bufferSeconds)
    (Hlate : forall t, In t targetTimes ->
               loc now mod 86400
               <= triggerOffset intervalHours bufferSeconds t) :
  After (TriggerTime
           (fst (NextTrigger now targetTimes intervalHours bufferSeconds)))
        now = true.
Proof.
  unfold NextTrigger.
  set (today := Truncate now (24 * Hour)).
  set (tomorrow := Add today (24 * Hour)).
  destruct (find _ _) as [t|] eqn:Ef; cbn [fst].
  - apply find_some in Ef. apply Ef.
  - assert (Hp : Permutation
                   (CalculateDailyTriggers tomorrow targetTimes intervalHours
                                           bufferSeconds)
                   (map (Spec.triggerFor tomorrow intervalHours bufferSeconds)
                        targetTimes)).
    { unfold CalculateDailyTriggers.
      rewrite triggers_wellFormed by assumption. apply Slice_perm. }
    destruct (CalculateDailyTriggers tomorrow targetTimes intervalHours
                                     bufferSeconds) as [|t l]; cbn [fst].
    + apply Permutation_nil in Hp. apply map_eq_nil in Hp. congruence.
    + assert (Hin : In t (map (Spec.triggerFor tomorrow intervalHours
                                 bufferSeconds) targetTimes))
        by (eapply Permutation_in; [exact Hp|now left]).
      apply in_map_iff in Hin. destruct Hin as (s & <- & Hs).
      specialize (Hlate s Hs).
      unfold After. apply Z.ltb_lt. rewrite triggerFor_unix.
      subst tomorrow today. rewrite dayNumber_tomorrow.
      rewrite Truncate_day. cbn [Add loc].
      set (X := triggerOffset intervalHours bufferSeconds s) in *.
      clearbody X. change Second with 1000000000. zdiv.
Qed.

Lemma NextTrigger_future_witness :
  After (TriggerTime
           (fst (NextTrigger (Date 2025 2 19 23 0 0 0 UTC)
                             Spec.exampleTargets 5 60)))
        (Date 2025 2 19 23 0 0 0 UTC) = true.
Proof.
  apply NextTrigger_future.
  - discriminate.
  - repeat constructor; vm_compute; reflexivity.
  - unfold Spec.hoursFit. lia.
  - unfold Spec.secondsFit. lia.
  - intros t [<-|[<-|[<-|[]]]]; vm_compute; discriminate.
Defined.
End FutureTrigger.
(** ** More on the scheduling loop *)

Section LoopMore.
Import GoInt GoTime Scheduler Loop.
Import ITree.ITree ITree.ITreeFacts ITree.Events.State ITree.Events.StateFacts.
Import ITreeNotations.
Local Open Scope itree_scope.

Variable env : Env.
Variable cfg : SchedulerConfig.

(** X15: When the context is done at the top of the loop, the loop returns
    ctx.Err() before anything else: the clock is not read, nothing is
    waited for, the action is not invoked and nothing is logged. *)
Theorem cancelled_before_pass (nextTrigger : DailyTrigger) (r : Run)
    (Hdone : doneAtPoll env (nPoll r) = true) :
  runLoop env cfg nextTrigger r ≈
  Ret (mkRun (nNow r) (S (nPoll r)) (nWait r) (nTrigger r) (logged r),
       ctxErr env).
Proof.
  rewrite runLoop_pass, iteration_done_at_poll by assumption.
  rewrite bind_ret_l. cbn [fst snd]. reflexivity.
Qed.

(** X16: A pass in which no cancellation is observed invokes the action exactly
    once, whether it succeeds or fails, and logs the result; it reads the
    clock twice and ends with the trigger computed from the second
    reading.  It waits, and logs the wait, only when the trigger is after
    the first reading: a trigger that is due or past is fired at once. *)
Theorem pass_fires_once (nextTrigger : DailyTrigger) (r : Run)
    (Hpoll : doneAtPoll env (nPoll r) = false)
    (Hwait : After (TriggerTime nextTrigger) (clock env (nNow r)) = true ->
             timerFires env (nWait r) = true) :
  let now := clock env (nNow r) in
  let waits := After (TriggerTime nextTrigger) now in
  let next :=
    fst (NextTrigger (clock env (S (nNow r))) (TargetTimes cfg)
                     (IntervalHours cfg) (SafetyBufferSeconds cfg)) in
  let outcome :=
    match triggerResult env (nTrigger r) with
    | Some e => LogTriggerFailed e
    | None => LogTriggerCompleted
    end in
  interp_state (inEnv env) (iteration cfg nextTrigger) r ≈
  Ret (mkRun (S (S (nNow r))) (S (nPoll r))
             (if waits then S (nWait r) else nWait r)
             (S (nTrigger r))
             (logged r ++
              (if waits
               then [LogWaiting (Round (Sub (TriggerTime nextTrigger) now)
                                       Second)]
               else []) ++
              [LogTriggering (platformName env) (TargetTime nextTrigger);
               outcome;
               LogNextTrigger (TriggerTime next) (TargetTime next)]),
       inl next).
Proof.
  cbv zeta. rewrite iteration_fires by assumption.
  unfold afterFiring, computeNext.
  destruct (After (TriggerTime nextTrigger) (clock env (nNow r)));
    cbn [app]; rewrite <- ?app_assoc; cbn [app]; reflexivity.
Qed.

(** X17: As long as the context is never done, the loop does not return,
    whatever the clock shows and whatever the action answers. *)
Theorem never_cancelled_never_returns (nextTrigger : DailyTrigger) (r : Run)
    (Hpoll : forall k, doneAtPoll env k = false)
    (Htimer : forall k, timerFires env k = true) :
  forall (r' : Run) (v : error),
    ~ (runLoop env cfg nextTrigger r ≈ Ret (r', v)).
Proof.
  intros r' v Hret.
  assert (Hpost : eutt (fun _ _ : Run * error => False)
                       (runLoop env cfg nextTrigger r)
                       (runLoop env cfg nextTrigger r)).
  { unfold runLoop, mainLoop.
    rewrite (interp_state_iter'_eutt (inEnv env) (iteration cfg)
               (fun i => interp_state (inEnv env) (iteration cfg i))
               ltac:(intros; cbv beta; reflexivity) nextTrigger r).
    unfold Basics.iter, MonadIter_stateT0, Basics.iter, MonadIter_itree.
    apply (eutt_iter' eq); [|reflexivity].
    intros [r1 tr1] ? <-. cbn [fst snd].
    unfold Monad.bind, Monad.ret, Monad_itree.
    rewrite (iteration_fires env cfg tr1 r1 (Hpoll _) (fun _ => Htimer _)).
    rewrite bind_ret_l. cbn [fst snd].
    apply eqit_Ret. constructor. reflexivity. }
  rewrite Hret in Hpost. apply eqit_inv_Ret in Hpost. exact Hpost.
Qed.


End LoopMore.

Section LoopMoreWitnesses.
Import GoTime Scheduler Loop.
Import ITree.ITree ITree.ITreeFacts.

Lemma cancelled_before_pass_witness :
  eutt eq (runLoop Derived.stoppedEnv exampleCfg exampleTrigger freshRun)
          (Ret (mkRun 0 1 0 0 [], Canceled)).
Proof.
  apply (cancelled_before_pass Derived.stoppedEnv exampleCfg exampleTrigger
                               freshRun).
  reflexivity.
Defined.

Lemma pass_fires_once_witness :
  eutt eq
    (State.interp_state (inEnv Derived.succeedingEnv)
       (iteration exampleCfg exampleTrigger) freshRun)
    (Ret (mkRun 2 1 0 1
            [LogTriggering "anthropic" "09:00";
             LogTriggerCompleted;
             LogNextTrigger (Date 2025 2 20 9 1 0 0 UTC) "14:00"],
          inl (mkDailyTrigger "14:00" (Date 2025 2 20 9 1 0 0 UTC)))).
Proof.
  refine (pass_fires_once Derived.succeedingEnv exampleCfg exampleTrigger
                          freshRun _ _).
  - reflexivity.
  - intros H. vm_compute in H. discriminate H.
Defined.

Lemma never_cancelled_never_returns_witness :
  (exists (r' : Run) (v : error),
      eutt eq (runLoop failingEnv exampleCfg exampleTrigger freshRun)
              (Ret (r', v)))
  <-> False.
Proof.
  split; [|intros []].
  intros (r' & v & H).
  apply (never_cancelled_never_returns failingEnv exampleCfg exampleTrigger
           freshRun (fun _ => eq_refl) (fun _ => eq_refl) r' v H).
Defined.

End LoopMoreWitnesses.

(** ** Order, duplicates and number of target times *)

Section TargetLists.
Import GoInt GoTime GoFmt Config Loop ConfigFile Validation Derived.
Local Open Scope string_scope.
Local Open Scope list_scope.
Local Open Scope Z_scope.

(** X19: Whether the validator accepts a list of target times does not depend
    on the order in which they are given. *)
Theorem validate_order_irrelevant (targetTimes targetTimes' : list string)
    (intervalHours : Z)
    (Hperm : Permutation targetTimes targetTimes') :
  validateTargetTimesConflict targetTimes intervalHours = None
  <-> validateTargetTimesConflict targetTimes' intervalHours = None.
Proof.
  rewrite !validate_None. now apply AtDistinct_perm.
Qed.

Lemma validate_order_irrelevant_witness :
  validateTargetTimesConflict ["19:00"; "09:00"; "14:00"] 5 = None
  <-> validateTargetTimesConflict ["09:00"; "14:00"; "19:00"] 5 = None.
Proof.
  apply validate_order_irrelevant.
  apply (Permutation_cons_app ["09:00"; "14:00"] [] "19:00").
  cbn [app]. reflexivity.
Defined.

(** X20: Two entries of the list that denote the same time of day are always
    reported as a conflict. *)
Theorem duplicate_targets_rejected (targetTimes : list string)
    (intervalHours : Z) (i j : nat) (a b : string)
    (Hwf : Forall Spec.wellFormed targetTimes)
    (Hfit : Spec.hoursFit intervalHours)
    (Hij : i <> j)
    (Hi : nth_error targetTimes i = Some a)
    (Hj : nth_error targetTimes j = Some b)
    (Hsame : Spec.todSeconds a = Spec.todSeconds b) :
  exists e, validateTargetTimesConflict targetTimes intervalHours = Some e.
Proof.
  destruct (validateTargetTimesConflict targetTimes intervalHours)
    as [e|] eqn:E; [now exists e|].
  apply validate_NoConflict in E; [|assumption].
  apply NoConflict_apart in E.
  destruct (E i j a b Hij Hi Hj) as [Hw Hd].
  rewrite Hsame in Hd. unfold windowSeconds in *.
  exfalso. revert Hw Hd. zdiv.
Qed.

Lemma duplicate_targets_rejected_witness :
  exists e, validateTargetTimesConflict ["09:00"; "14:00"; " 9:0"] 5 = Some e.
Proof.
  apply (duplicate_targets_rejected ["09:00"; "14:00"; " 9:0"] 5
           0%nat 2%nat "09:00" " 9:0").
  - repeat constructor; vm_compute; reflexivity.
  - unfold Spec.hoursFit. lia.
  - discriminate.
  - reflexivity.
  - reflexivity.
  - vm_compute. reflexivity.
Defined.

Lemma gap_chain W M l : forall y,
  0 <= W ->
  ForallOrdPairs (gap W M) (y :: l) -> l <> [] ->
  exists z, In z l /\ y + Z.of_nat (List.length l) * W <= z.
Proof.
  induction l as [|x l IH]; intros y HW H Hne; [congruence|].
  inversion H as [|? ? Hy Hrest]; subst.
  inversion Hy as [|? ? Hyx Hyl]; subst.
  destruct l as [|x' l'].
  - exists x. split; [now left|]. unfold gap in Hyx.
    cbn [List.length]. lia.
  - destruct (IH x HW Hrest ltac:(discriminate)) as (z & Hz & Hle).
    exists z. split; [now right|].
    unfold gap in Hyx. cbn [List.length] in *. lia.
Qed.

Lemma gap_count W M l :
  0 < W <= M ->
  ForallOrdPairs (gap W M) l -> Z.of_nat (List.length l) * W <= M.
Proof.
  intros HW H. destruct l as [|y l]; [cbn [List.length]; lia|].
  destruct l as [|x l']; [cbn [List.length]; lia|].
  destruct (gap_chain W M (x :: l') y ltac:(lia) H ltac:(discriminate))
    as (z & Hz & Hle).
  inversion H as [|? ? Hy _]; subst. rewrite Forall_forall in Hy.
  specialize (Hy z Hz). unfold gap in Hy.
  cbn [List.length] in *. lia.
Qed.

Lemma sorted_gaps W l :
  0 < W ->
  Forall (fun x => 0 <= x < 86400) l ->
  StronglySorted Z.le l ->
  Spec.AtDistinct (fun a b => W <= (a - b) mod 86400) l ->
  ForallOrdPairs (gap W 86400) l.
Proof.
  intros HW Hr Hs Hd. apply AtDistinct_ordpairs in Hd.
  induction Hs as [|a l Hs IH Ha]; [constructor|].
  inversion Hd as [|? ? Hda Hdl]; subst.
  inversion Hr as [|? ? Hra Hrl]; subst.
  constructor; [|now apply IH].
  rewrite Forall_forall in *. intros b Hb.
  specialize (Ha b Hb). specialize (Hda b Hb). specialize (Hrl b Hb).
  destruct Hda as [H1 H2]. unfold gap. revert H1 H2. zdiv.
Qed.

(** X21: An accepted configuration has at most 86400 / window target times, the
    window being the interval reduced modulo 24 hours: with an interval of
    fewer than 24 hours, the number of targets times the interval is at
    most 24. *)
Theorem target_count_bound (c : Config)
    (Hok : ValidateScheduler c = None) :
  let s := Scheduler_ c in
  Z.of_nat (List.length (TargetTimes s)) * windowSeconds (IntervalHours s)
  <= 86400 /\
  (IntervalHours s < 24 ->
   Z.of_nat (List.length (TargetTimes s)) * IntervalHours s <= 24).
Proof.
  cbv zeta.
  assert (Hmain :
    Z.of_nat (List.length (TargetTimes (Scheduler_ c)))
    * windowSeconds (IntervalHours (Scheduler_ c)) <= 86400).
  { apply scheduler_checks in Hok. destruct Hok as (Hh & _ & Hwf & _ & Hv).
    apply validate_NoConflict in Hv; [|unfold Spec.hoursFit; lia].
    apply NoConflict_apart in Hv.
    set (ts := TargetTimes (Scheduler_ c)) in *.
    set (W := windowSeconds (IntervalHours (Scheduler_ c))) in *.
    assert (HW0 : 0 <= W < 86400) by (subst W; unfold windowSeconds; zdiv).
    destruct ts as [|a [|b l]] eqn:Ets;
      [cbn [List.length]; lia|cbn [List.length]; lia|].
    rewrite <- Ets in *.
    assert (HW : 0 < W).
    { destruct (Hv 0%nat 1%nat a b ltac:(discriminate)) as [Hw _];
        [rewrite Ets; reflexivity|rewrite Ets; reflexivity|].
      unfold apart in Hw. fold W in Hw. lia. }
    set (xs := map (fun t => Spec.todSeconds t mod 86400) ts).
    set (ys := GoSort.Slice Z.ltb xs).
    assert (Hperm : Permutation ys xs) by apply Slice_perm.
    assert (Hlen : List.length ts = List.length ys).
    { rewrite (Permutation_length Hperm). subst xs. now rewrite length_map. }
    rewrite Hlen. apply gap_count; [lia|].
    apply sorted_gaps; [exact HW| | |].
    - eapply Permutation_Forall; [symmetry; exact Hperm|].
      subst xs. apply Forall_forall. intros x Hx.
      apply in_map_iff in Hx. destruct Hx as (t & <- & _). zdiv.
    - apply (Slice_sorted Z.ltb Z.le).
      + intros x y z. lia.
      + intros x y H. apply Z.ltb_lt in H. lia.
      + intros x y H. apply Z.ltb_ge in H. lia.
    - apply (AtDistinct_perm _ _ _ Hperm). subst xs.
      apply AtDistinct_map. intros i j x y Hij Hi Hj.
      destruct (Hv i j x y Hij Hi Hj) as [_ Hd]. fold W in Hd.
      revert Hd. zdiv. }
  split; [exact Hmain|].
  intros Hlt. apply scheduler_checks in Hok. destruct Hok as (Hh & _).
  unfold windowSeconds in Hmain.
  replace ((IntervalHours (Scheduler_ c) * 3600) mod 86400)
    with (IntervalHours (Scheduler_ c) * 3600) in Hmain by zdiv.
  lia.
Qed.

Lemma target_count_bound_witness :
  Z.of_nat (List.length (TargetTimes (Scheduler_ exampleConfig)))
  * windowSeconds (IntervalHours (Scheduler_ exampleConfig)) <= 86400.
Proof.
  destruct (target_count_bound exampleConfig) as [H _]; [|exact H].
  vm_compute. reflexivity.
Defined.
End TargetLists.

(** ** Days *)

Section Days.
Import GoInt GoTime GoFmt Config Scheduler Derived.
Local Open Scope string_scope.
Local Open Scope list_scope.
Local Open Scope Z_scope.









(** X24: The triggers of a date depend on its calendar day and its Location
    only, not on its time of day. *)
Theorem triggers_depend_on_day (date date' : Time)
    (targetTimes : list string) (intervalHours bufferSeconds : Z)
    (Hday : dayNumber date = dayNumber date')
    (Hloc : loc date = loc date') :
  CalculateDailyTriggers date targetTimes intervalHours bufferSeconds
  = CalculateDailyTriggers date' targetTimes intervalHours bufferSeconds.
Proof.
  unfold CalculateDailyTriggers. f_equal.
  induction targetTimes as [|t ts IH]; cbn [flat_map]; [reflexivity|].
  rewrite IH. f_equal. unfold triggerOf.
  destruct (Sscanf_d_colon_d t) as [[hour min] ok].
  destruct ok; cbn [negb]; [|reflexivity].
  now rewrite !Date_of_day, Hday, Hloc.
Qed.

Lemma triggers_depend_on_day_witness :
  CalculateDailyTriggers (Date 2025 2 19 0 0 0 0 UTC) Spec.exampleTargets 5 60
  = CalculateDailyTriggers (Date 2025 2 19 23 59 59 0 UTC)
                           Spec.exampleTargets 5 60.
Proof.
  apply triggers_depend_on_day; reflexivity.
Defined.
End Days.

(** ** The platform that is created *)

Section CreatedPlatform.
Import GoInt GoTime Loop ConfigFile Platform Derived.
Local Open Scope string_scope.

(** X25: A platform that [NewAnthropicPlatform] has created passes
    [ValidateConfig] exactly when the base URL is not empty, the api_key is
    not the empty string, and the option model is not the empty string: a
    model that is missing, or is not a string, is replaced by the default
    and never reported. *)
Theorem created_platform_valid (input : PlatformInput)
    (p : AnthropicPlatform)
    (Hnew : NewAnthropicPlatform input = inr p) :
  (ValidateConfig p = None
   <-> inputBaseURL input <> EmptyString /\
       lookup (inputOptions input) "api_key" <> Some (anyString EmptyString) /\
       lookup (inputOptions input) "model" <> Some (anyString EmptyString)) /\
  (asString (lookup (inputOptions input) "model") = None ->
   model p = "claude-3-5-sonnet-20241022" /\
   ValidateConfig p <> Some modelMissing).
Proof.
  unfold NewAnthropicPlatform in Hnew.
  destruct (lookup (inputOptions input) "api_key") as [[k| |]|] eqn:Ek;
    cbn [asString] in Hnew; try discriminate.
  injection Hnew as <-. unfold ValidateConfig. cbn [baseURL apiKey model].
  split.
  - destruct (String.eqb_spec (inputBaseURL input) EmptyString) as [Hu|Hu].
    { split; [discriminate|]. intros (H & _). congruence. }
    destruct (String.eqb_spec k EmptyString) as [->|Hk].
    { split; [discriminate|]. intros (_ & H & _). congruence. }
    destruct (lookup (inputOptions input) "model") as [[m| |]|];
      cbn [asString].
    + destruct (String.eqb_spec m EmptyString) as [->|Hm].
      * split; [discriminate|]. intros (_ & _ & H). congruence.
      * split; [|reflexivity]. intros _. repeat split; congruence.
    + split; [|reflexivity]. intros _. repeat split; congruence.
    + split; [|reflexivity]. intros _. repeat split; congruence.
    + split; [|reflexivity]. intros _. repeat split; congruence.
  - intros ->. split; [reflexivity|].
    destruct (String.eqb _ _); [discriminate|].
    destruct (String.eqb _ _); [discriminate|].
    cbn. discriminate.
Qed.

Lemma created_platform_valid_witness :
  ValidateConfig (examplePlatform 0) = None
  <-> inputBaseURL (inputOf exampleConfig) <> EmptyString /\
      lookup (inputOptions (inputOf exampleConfig)) "api_key"
        <> Some (anyString EmptyString) /\
      lookup (inputOptions (inputOf exampleConfig)) "model"
        <> Some (anyString EmptyString).
Proof.
  apply (created_platform_valid (inputOf exampleConfig) (examplePlatform 0)).
  reflexivity.
Defined.
End CreatedPlatform.
